(** * twilio-go: the HTTP client layer ([httpclient.go])

  A shallow embedding of [NewHTTPClient], [Get], [Post], [Delete] and
  [apiClient.request], together with the parts of the Go standard library
  and of [github.com/pkg/errors] they call, and the properties of the
  client stated over it.

  Conventions.
  - A Go [string] is a Rocq [string] (a sequence of 8-bit characters); a
    [[]byte] is a [list byte], and a possibly-nil [[]byte] an [option].
  - A Go [int] is a [Z]; the client only compares and prints status codes.
  - A Go [error] is a value of the inductive type [error]; [nil] is [None].
    Comparison of error values ([err == ErrNotFound], [err == io.EOF]) is
    equality of these values; the stack trace that [pkg/errors] records
    is not represented.
  - The effects of a call (invoking the transport, reading and closing the
    response body) are recorded, in order, in a trace of events. *)

From Stdlib Require Import ZArith String Ascii List Lia DecimalString DecimalZ.
From Stdlib.Strings Require Import Byte.
From stdpp Require Import base strings gmap list.

Open Scope Z_scope.
Open Scope string_scope.

(** ** Go strings *)

Module gostrings.

(** [s[:n]] and [s[n:]]. *)
Fixpoint take (n : nat) (s : string) : string :=
  match n, s with
  | S n', String c s' => String c (take n' s')
  | _, _ => ""
  end.

Fixpoint drop (n : nat) (s : string) : string :=
  match n, s with
  | S n', String _ s' => drop n' s'
  | _, _ => s
  end.

Definition HasPrefix (s prefix : string) : bool := String.prefix prefix s.

Fixpoint rev (s : string) : string :=
  match s with
  | "" => ""
  | String c s' => rev s' +:+ String c ""
  end.

Definition HasSuffix (s suffix : string) : bool :=
  String.prefix (rev suffix) (rev s).

(** [strings.Index]: [None] stands for [-1]. *)
Definition Index (s substr : string) : option nat := String.index 0 substr s.

Definition Contains (s substr : string) : bool :=
  match Index s substr with Some _ => true | None => false end.

(** [strings.LastIndex] for a one-byte needle. *)
Fixpoint LastIndexByte (s : string) (c : ascii) : option nat :=
  match s with
  | "" => None
  | String d s' =>
      match LastIndexByte s' c with
      | Some i => Some (S i)
      | None => if Ascii.eqb d c then Some 0%nat else None
      end
  end.

(** [strings.Count] for a one-byte needle. *)
Fixpoint CountByte (s : string) (c : ascii) : nat :=
  match s with
  | "" => 0%nat
  | String d s' => ((if Ascii.eqb d c then 1 else 0) + CountByte s' c)%nat
  end.

Definition between (lo hi c : ascii) : bool :=
  (Ascii.leb lo c && Ascii.leb c hi)%bool.

Definition lower (c : ascii) : ascii :=
  if between "A" "Z" c then ascii_of_nat (nat_of_ascii c + 32) else c.

Definition upper (c : ascii) : ascii :=
  if between "a" "z" c then ascii_of_nat (nat_of_ascii c - 32) else c.

Fixpoint map (f : ascii -> ascii) (s : string) : string :=
  match s with
  | "" => ""
  | String c s' => String (f c) (map f s')
  end.

Fixpoint forallb (f : ascii -> bool) (s : string) : bool :=
  match s with
  | "" => true
  | String c s' => (f c && forallb f s')%bool
  end.

(** [strings.ToLower] on the ASCII letters (the only ones a scheme has). *)
Definition ToLower (s : string) : string := map lower s.

Definition TrimSuffix (s suffix : string) : string :=
  if HasSuffix s suffix
  then take (String.length s - String.length suffix) s
  else s.

Definition isEmpty (s : string) : bool :=
  match s with "" => true | _ => false end.

End gostrings.

(** ** [strconv] and [fmt] *)

Module strconv.

(** [strconv.Itoa], which is what [%d] prints for an [int]: the decimal
    digits, with a minus sign for a negative number. *)
Definition Itoa (i : Z) : string := NilEmpty.string_of_int (Z.to_int i).

Definition lowerhex (n : nat) : ascii :=
  match String.get n "0123456789abcdef" with Some c => c | None => "0"%char end.

(** [strconv.Quote] on a string of ASCII bytes: the quote and the backslash
    are escaped, a printable byte stands for itself, and a control byte is
    written as Go writes it. *)
Fixpoint quoteASCII (s : string) : string :=
  match s with
  | "" => ""
  | String c s' =>
      let n := nat_of_ascii c in
      (if ((n =? 34) || (n =? 92))%nat then String "\" (String c "")
       else if ((32 <=? n) && (n <? 127))%nat then String c ""
       else if (n =? 7)%nat then "\a"
       else if (n =? 8)%nat then "\b"
       else if (n =? 12)%nat then "\f"
       else if (n =? 10)%nat then "\n"
       else if (n =? 13)%nat then "\r"
       else if (n =? 9)%nat then "\t"
       else if (n =? 11)%nat then "\v"
       else if (n =? 127)%nat then "\u007f"
       else String "\" (String "x" (String (lowerhex (n / 16))
                                    (String (lowerhex (n mod 16)) ""))))
      +:+ quoteASCII s'
  end.

Definition QuoteASCII (s : string) : string :=
  String (ascii_of_nat 34) (quoteASCII s +:+ String (ascii_of_nat 34) "").

End strconv.

Module fmt.

(** An operand of a formatting call: an [int], or a value printed through
    its string form (a [string], or a [Stringer] such as [*url.URL]). *)
Inductive arg : Type :=
| Int (i : Z)
| Str (s : string).

(** [fmt.Sprintf(format, args...)] for the verbs the client uses: [%d] on
    an [int], [%s] on a string form, and [%%].  Go prints a diagnostic for
    any other combination; here the verb is left in place. *)
Fixpoint Sprintf (format : string) (args : list arg) : string :=
  match format with
  | "" => ""
  | String c rest =>
      if Ascii.eqb c "%" then
        match rest with
        | String v rest' =>
            if Ascii.eqb v "%" then String "%" (Sprintf rest' args)
            else
              match args with
              | Int i :: args' =>
                  if Ascii.eqb v "d" then strconv.Itoa i +:+ Sprintf rest' args'
                  else String c (String v (Sprintf rest' args'))
              | Str s :: args' =>
                  if Ascii.eqb v "s" then s +:+ Sprintf rest' args'
                  else String c (String v (Sprintf rest' args'))
              | [] => String c (String v (Sprintf rest' args))
              end
        | "" => String c ""
        end
      else String c (Sprintf rest args)
  end.

End fmt.

(** ** Errors: the [error] values the client can meet *)

Module errors.

(** The dynamic types of the error values that occur: the sentinel
    [io.EOF], errors of the standard library ([errors.New], [fmt.Errorf],
    [net/url]) and the three types of [github.com/pkg/errors]. *)
Inductive error : Type :=
| EOF                                         (* io.EOF *)
| errorString (s : string)                    (* errors.New(s) of the standard library *)
| invalidPort (colonPort : string)            (* fmt.Errorf("invalid port %q after host", colonPort) *)
| EscapeError (s : string)                    (* url.EscapeError(s) *)
| InvalidHostError (s : string)               (* url.InvalidHostError(s) *)
| invalidMethod (method : string)             (* fmt.Errorf("net/http: invalid method %q", method) *)
| urlError (Op URL : string) (Err : error)    (* &url.Error{Op, URL, Err} *)
| fundamental (msg : string)                  (* pkg/errors: New, Errorf *)
| withMessage (cause : error) (msg : string)  (* pkg/errors: the inner value of Wrap *)
| withStack (err : error).                    (* pkg/errors: the outer value of Wrap *)

#[export] Instance error_eq_dec : EqDecision error.
Proof. intros x y. unfold Decision. decide equality; apply String.string_dec. Defined.

(** [strconv.Quote] decides printability with Unicode tables; it is taken
    as a parameter.  Only the messages of [net/url] errors use it. *)
Class Strconv := Quote : string -> string.

(** [err.Error()]. *)
Fixpoint Error {Q : Strconv} (e : error) : string :=
  match e with
  | EOF => "EOF"
  | errorString s => s
  | invalidPort p => "invalid port " +:+ Quote p +:+ " after host"
  | EscapeError s => "invalid URL escape " +:+ Quote s
  | InvalidHostError s => "invalid character " +:+ Quote s +:+ " in host name"
  | invalidMethod m => "net/http: invalid method " +:+ Quote m
  | urlError op u err => op +:+ " " +:+ u +:+ ": " +:+ Error err
  | fundamental msg => msg
  | withMessage cause msg => msg +:+ ": " +:+ Error cause
  | withStack err => Error err
  end.

(** [errors.New(message)]. *)
Definition New (message : string) : error := fundamental message.

(** [errors.Wrap(err, message)] for a non-nil [err]. *)
Definition Wrap (err : error) (message : string) : error :=
  withStack (withMessage err message).

(** [errors.Errorf(format, args...)]. *)
Definition Errorf (format : string) (args : list fmt.arg) : error :=
  fundamental (fmt.Sprintf format args).

(** [errors.Wrapf(err, format, args...)] for a non-nil [err]. *)
Definition Wrapf (err : error) (format : string) (args : list fmt.arg) : error :=
  withStack (withMessage err (fmt.Sprintf format args)).

(** The [Cause()] method, which only [withMessage] and [withStack] have. *)
Definition causer (e : error) : option error :=
  match e with
  | withMessage cause _ => Some cause
  | withStack err => Some err
  | _ => None
  end.

(** [errors.Cause(err)]: follow [Cause()] as long as the value has one. *)
Fixpoint Cause (e : error) : error :=
  match e with
  | withMessage cause _ => Cause cause
  | withStack err => Cause err
  | _ => e
  end.

(** The cause chain of a value: the value itself, then what [Cause()]
    returns, and so on. *)
Fixpoint chain (e : error) : list error :=
  e :: match e with
       | withMessage cause _ => chain cause
       | withStack err => chain err
       | _ => []
       end.

End errors.
Export errors.

(** ** [net/url]: parsing and printing URLs

    The functions below follow [net/url/url.go] of the Go release the
    repository targets (go1.13): [Parse] with all it calls, and
    [URL.String].  A value paired with an error is a [sum]: [inl] for
    the value with a nil error, [inr] for the error. *)

Module url.
Import gostrings.

Notation "'do' x <- e ; k" :=
  (match e with inl x => k | inr err => inr err end)
  (at level 10, x name, e at level 100, k at level 200, only parsing).

Inductive encoding : Type :=
| encodePath
| encodePathSegment
| encodeHost
| encodeZone
| encodeUserPassword
| encodeQueryComponent
| encodeFragment.

Definition is_host_mode (mode : encoding) : bool :=
  match mode with encodeHost | encodeZone => true | _ => false end.

Record Userinfo : Type := mkUserinfo {
  username : string;
  password : string;
  passwordSet : bool
}.

Record URL : Type := mkURL {
  Scheme : string;
  Opaque : string;
  User : option Userinfo;
  Host : string;
  Path : string;
  RawPath : string;
  ForceQuery : bool;
  RawQuery : string;
  Fragment : string
}.

Definition ch (c : ascii) (set : string) : bool :=
  match String.index 0 (String c "") set with Some _ => true | None => false end.

(** The byte of the double quote. *)
Definition dquote : ascii := ascii_of_nat 34.

Definition alnum (c : ascii) : bool :=
  (between "a" "z" c || between "A" "Z" c || between "0" "9" c)%bool.

Definition ishex (c : ascii) : bool :=
  (between "0" "9" c || between "a" "f" c || between "A" "F" c)%bool.

Definition unhex (c : ascii) : nat :=
  if between "0" "9" c then (nat_of_ascii c - 48)%nat
  else if between "a" "f" c then (nat_of_ascii c - 97 + 10)%nat
  else if between "A" "F" c then (nat_of_ascii c - 65 + 10)%nat
  else 0%nat.

(** [shouldEscape(c, mode)]. *)
Definition shouldEscape (c : ascii) (mode : encoding) : bool :=
  if alnum c then false
  else if (is_host_mode mode && (ch c "!$&'()*+,;=:[]<>" || Ascii.eqb c dquote))%bool then false
  else if ch c "-_.~" then false
  else if ch c "$&+,/:;=?@" then
    match mode with
    | encodePath => Ascii.eqb c "?"
    | encodePathSegment => ch c "/;,?"
    | encodeUserPassword => ch c "@/?:"
    | encodeQueryComponent => true
    | encodeFragment => false
    | encodeHost | encodeZone => true
    end
  else if match mode with encodeFragment => ch c "!()*" | _ => false end then false
  else true.

(** The first loop of [unescape]: check that every [%] starts a
    well-formed escape (and, in a host, that the bytes are allowed). *)
Fixpoint unescape_check (s : string) (mode : encoding) : option error :=
  match s with
  | "" => None
  | String c rest =>
      if Ascii.eqb c "%" then
        match rest with
        | String a (String b rest') =>
            if negb (ishex a && ishex b) then Some (EscapeError (take 3 s))
            else if (match mode with encodeHost => true | _ => false end
                     && (unhex a <? 8)%nat
                     && negb (String.eqb (take 3 s) "%25"))%bool
            then Some (EscapeError (take 3 s))
            else if (match mode with encodeZone => true | _ => false end
                     && negb (String.eqb (take 3 s) "%25")
                     && negb (Ascii.eqb (ascii_of_nat (unhex a * 16 + unhex b)) " ")
                     && shouldEscape (ascii_of_nat (unhex a * 16 + unhex b)) encodeHost)%bool
            then Some (EscapeError (take 3 s))
            else unescape_check rest' mode
        | _ => Some (EscapeError (take 3 s))
        end
      else if Ascii.eqb c "+" then unescape_check rest mode
      else if (is_host_mode mode && (nat_of_ascii c <? 128)%nat
               && shouldEscape c encodeHost)%bool
      then Some (InvalidHostError (String c ""))
      else unescape_check rest mode
  end.

(** The second loop of [unescape]: decode.  (When the string has no escape
    the source returns it as it is, which is what decoding gives.) *)
Fixpoint unescape_decode (s : string) (mode : encoding) : string :=
  match s with
  | "" => ""
  | String c rest =>
      if Ascii.eqb c "%" then
        match rest with
        | String a (String b rest') =>
            String (ascii_of_nat (unhex a * 16 + unhex b)) (unescape_decode rest' mode)
        | _ => ""
        end
      else if Ascii.eqb c "+" then
        String (match mode with encodeQueryComponent => " " | _ => "+" end)%char
               (unescape_decode rest mode)
      else String c (unescape_decode rest mode)
  end.

Definition unescape (s : string) (mode : encoding) : string + error :=
  match unescape_check s mode with
  | Some err => inr err
  | None => inl (unescape_decode s mode)
  end.

Definition upperhex (n : nat) : ascii :=
  match String.get n "0123456789ABCDEF" with Some c => c | None => "0"%char end.

(** [escape(s, mode)]. *)
Fixpoint escape (s : string) (mode : encoding) : string :=
  match s with
  | "" => ""
  | String c rest =>
      if shouldEscape c mode then
        if (Ascii.eqb c " " && match mode with encodeQueryComponent => true | _ => false end)%bool
        then String "+" (escape rest mode)
        else String "%" (String (upperhex (nat_of_ascii c / 16))
                        (String (upperhex (nat_of_ascii c mod 16)) (escape rest mode)))
      else String c (escape rest mode)
  end.

(** [getscheme(rawurl)]: the loop, with [i] the index and [s] the rest. *)
Fixpoint getscheme_loop (rawurl : string) (i : nat) (s : string)
  : (string * string) + error :=
  match s with
  | "" => inl ("", rawurl)
  | String c s' =>
      if (between "a" "z" c || between "A" "Z" c)%bool then
        getscheme_loop rawurl (S i) s'
      else if (between "0" "9" c || ch c "+-.")%bool then
        if (i =? 0)%nat then inl ("", rawurl) else getscheme_loop rawurl (S i) s'
      else if Ascii.eqb c ":" then
        if (i =? 0)%nat then inr (errorString "missing protocol scheme")
        else inl (take i rawurl, drop (S i) rawurl)
      else inl ("", rawurl)
  end.

Definition getscheme (rawurl : string) : (string * string) + error :=
  getscheme_loop rawurl 0 rawurl.

(** [split(s, c, cutc)]. *)
Definition split (s c : string) (cutc : bool) : string * string :=
  match Index s c with
  | None => (s, "")
  | Some i =>
      if cutc then (take i s, drop (i + String.length c) s)
      else (take i s, drop i s)
  end.

Definition validOptionalPort (port : string) : bool :=
  match port with
  | "" => true
  | String c digits => (Ascii.eqb c ":" && forallb (between "0" "9") digits)%bool
  end.

Definition validUserinfo (s : string) : bool :=
  forallb (fun r => (alnum r || ch r "-._:~!$&'()*+,;=%@")%bool) s.

(** [parseHost(host)]. *)
Definition parseHost (host : string) : string + error :=
  let plain := unescape host encodeHost in
  if HasPrefix host "[" then
    match LastIndexByte host "]" with
    | None => inr (errorString "missing ']' in host")
    | Some i =>
        let colonPort := drop (S i) host in
        if negb (validOptionalPort colonPort) then inr (invalidPort colonPort)
        else
          match Index (take i host) "%25" with
          | Some zone =>
              do host1 <- unescape (take zone host) encodeHost;
              do host2 <- unescape (drop zone (take i host)) encodeZone;
              do host3 <- unescape (drop i host) encodeHost;
              inl (host1 +:+ host2 +:+ host3)
          | None => plain
          end
    end
  else
    match LastIndexByte host ":" with
    | Some i =>
        let colonPort := drop i host in
        if negb (validOptionalPort colonPort) then inr (invalidPort colonPort)
        else plain
    | None => plain
    end.

(** [parseAuthority(authority)]. *)
Definition parseAuthority (authority : string)
  : (option Userinfo * string) + error :=
  let i := LastIndexByte authority "@" in
  do host <- match i with
             | None => parseHost authority
             | Some i => parseHost (drop (S i) authority)
             end;
  match i with
  | None => inl (None, host)
  | Some i =>
      let userinfo := take i authority in
      if negb (validUserinfo userinfo) then
        inr (errorString "net/url: invalid userinfo")
      else if negb (Contains userinfo ":") then
        do userinfo <- unescape userinfo encodeUserPassword;
        inl (Some (mkUserinfo userinfo "" false), host)
      else
        let '(username, password) := split userinfo ":" true in
        do username <- unescape username encodeUserPassword;
        do password <- unescape password encodeUserPassword;
        inl (Some (mkUserinfo username password true), host)
  end.

(** [URL.setPath(p)]. *)
Definition setPath (u : URL) (p : string) : URL + error :=
  do path <- unescape p encodePath;
  let escp := escape path encodePath in
  inl (mkURL (Scheme u) (Opaque u) (User u) (Host u) path
             (if String.eqb p escp then "" else p)
             (ForceQuery u) (RawQuery u) (Fragment u)).

Definition stringContainsCTLByte (s : string) : bool :=
  negb (forallb (fun b => negb ((nat_of_ascii b <? 32)%nat || (nat_of_ascii b =? 127)%nat)) s).

(** [parse(rawurl, viaRequest)]. *)
Definition parse (rawurl : string) (viaRequest : bool) : URL + error :=
  if stringContainsCTLByte rawurl then
    inr (errorString "net/url: invalid control character in URL")
  else if (isEmpty rawurl && viaRequest)%bool then
    inr (errorString "empty url")
  else if String.eqb rawurl "*" then
    inl (mkURL "" "" None "" "*" "" false "" "")
  else
    do sr <- getscheme rawurl;
    let scheme := ToLower (fst sr) in
    let rest := snd sr in
    let '(rest, forceQuery, rawQuery) :=
      if (HasSuffix rest "?" && (CountByte rest "?" =? 1)%nat)%bool
      then (take (String.length rest - 1) rest, true, "")
      else (fst (split rest "?" true), false, snd (split rest "?" true)) in
    let url := mkURL scheme "" None "" "" "" forceQuery rawQuery "" in
    if (negb (HasPrefix rest "/") && negb (isEmpty scheme))%bool then
      (* a rootless path after a scheme is opaque *)
      inl (mkURL scheme rest None "" "" "" forceQuery rawQuery "")
    else if (negb (HasPrefix rest "/") && viaRequest)%bool then
      inr (errorString "invalid URI for request")
    else if (negb (HasPrefix rest "/")
             && match Index rest ":", Index rest "/" with
                | Some colon, None => true
                | Some colon, Some slash => (colon <? slash)%nat
                | None, _ => false
                end)%bool then
      inr (errorString "first path segment in URL cannot contain colon")
    else
      do url_rest <-
        (if ((negb (isEmpty scheme) || (negb viaRequest && negb (HasPrefix rest "///")))
             && HasPrefix rest "//")%bool
         then
           let '(authority, rest') := split (drop 2 rest) "/" false in
           do uh <- parseAuthority authority;
           inl (mkURL scheme "" (fst uh) (snd uh) "" "" forceQuery rawQuery "", rest')
         else inl (url, rest));
      setPath (fst url_rest) (snd url_rest).

(** [url.Parse(rawurl)]. *)
Definition Parse (rawurl : string) : URL + error :=
  let '(u, frag) := split rawurl "#" true in
  match parse u false with
  | inr err => inr (urlError "parse" u err)
  | inl url =>
      if isEmpty frag then inl url
      else
        match unescape frag encodeFragment with
        | inr err => inr (urlError "parse" rawurl err)
        | inl fragment =>
            inl (mkURL (Scheme url) (Opaque url) (User url) (Host url) (Path url)
                       (RawPath url) (ForceQuery url) (RawQuery url) fragment)
        end
  end.

Definition validEncodedPath (s : string) : bool :=
  forallb (fun c => (ch c "!$&'()*+,;=:@" || ch c "[]" || Ascii.eqb c "%"
                     || negb (shouldEscape c encodePath))%bool) s.

(** [URL.EscapedPath()]. *)
Definition EscapedPath (u : URL) : string :=
  if (negb (isEmpty (RawPath u)) && validEncodedPath (RawPath u)
      && match unescape (RawPath u) encodePath with
         | inl p => String.eqb p (Path u)
         | inr _ => false
         end)%bool
  then RawPath u
  else if String.eqb (Path u) "*" then "*"
  else escape (Path u) encodePath.

(** [Userinfo.String()] for a non-nil receiver. *)
Definition Userinfo_String (ui : Userinfo) : string :=
  escape (username ui) encodeUserPassword
  +:+ (if passwordSet ui then ":" +:+ escape (password ui) encodeUserPassword else "").

Definition isSome {A} (o : option A) : bool :=
  match o with Some _ => true | None => false end.

(** [URL.String()]: [buf] is the builder, extended step by step. *)
Definition URL_String (u : URL) : string :=
  let buf := if isEmpty (Scheme u) then "" else Scheme u +:+ ":" in
  let buf :=
    if negb (isEmpty (Opaque u)) then buf +:+ Opaque u
    else
      let buf :=
        if (negb (isEmpty (Scheme u)) || negb (isEmpty (Host u)) || isSome (User u))%bool
        then
          let buf :=
            if (negb (isEmpty (Host u)) || negb (isEmpty (Path u)) || isSome (User u))%bool
            then buf +:+ "//" else buf in
          let buf :=
            match User u with
            | Some ui => buf +:+ Userinfo_String ui +:+ "@"
            | None => buf
            end in
          if negb (isEmpty (Host u)) then buf +:+ escape (Host u) encodeHost else buf
        else buf in
      let path := EscapedPath u in
      let buf :=
        if (negb (isEmpty path) && negb (HasPrefix path "/") && negb (isEmpty (Host u)))%bool
        then buf +:+ "/" else buf in
      let buf :=
        if isEmpty buf then
          match Index path ":" with
          | Some i =>
              match Index (take i path) "/" with
              | None => buf +:+ "./"
              | Some _ => buf
              end
          | None => buf
          end
        else buf in
      buf +:+ path in
  let buf :=
    if (ForceQuery u || negb (isEmpty (RawQuery u)))%bool
    then buf +:+ "?" +:+ RawQuery u else buf in
  if negb (isEmpty (Fragment u))
  then buf +:+ "#" +:+ escape (Fragment u) encodeFragment
  else buf.

(** [URL.IsAbs()]. *)
Definition IsAbs (u : URL) : bool := negb (isEmpty (Scheme u)).

End url.

(** ** [encoding/base64]: the standard encoding, with padding *)

Module base64.

Definition encodeStd : string :=
  "ABCDEFGHIJKLMNOPQRSTUVWXYZabcdefghijklmnopqrstuvwxyz0123456789+/".

Definition enc (n : N) : ascii :=
  match String.get (N.to_nat (n mod 64)) encodeStd with
  | Some c => c
  | None => "="%char
  end.

(** [StdEncoding.EncodeToString]: three bytes give four characters; a last
    group of one or two bytes is padded with [=]. *)
Fixpoint EncodeToString (src : string) : string :=
  match src with
  | "" => ""
  | String a "" =>
      let v := (N_of_ascii a * 65536)%N in
      String (enc (v / 262144)) (String (enc (v / 4096)) "==")
  | String a (String b "") =>
      let v := (N_of_ascii a * 65536 + N_of_ascii b * 256)%N in
      String (enc (v / 262144)) (String (enc (v / 4096)) (String (enc (v / 64)) "="))
  | String a (String b (String c rest)) =>
      let v := (N_of_ascii a * 65536 + N_of_ascii b * 256 + N_of_ascii c)%N in
      String (enc (v / 262144)) (String (enc (v / 4096))
        (String (enc (v / 64)) (String (enc v) (EncodeToString rest))))
  end.

(** The value of a character of the alphabet: its index in [encodeStd]
    (what [decodeMap] holds for it). *)
Definition dec (c : ascii) : N :=
  match String.index 0 (String c "") encodeStd with
  | Some i => N.of_nat i
  | None => 255
  end.

(** Reading an encoding made by [EncodeToString] back, four characters at
    a time.  (This is the inverse of the encoder on what the encoder
    writes, not [DecodeString], which also accepts line breaks and reports
    corrupt input.) *)
Fixpoint decode (s : string) : string :=
  match s with
  | String w (String x (String y (String z rest))) =>
      if Ascii.eqb y "=" then
        String (ascii_of_N ((dec w * 64 + dec x) / 16)) ""
      else if Ascii.eqb z "=" then
        let v := ((dec w * 64 + dec x) * 64 + dec y)%N in
        String (ascii_of_N (v / 1024)) (String (ascii_of_N ((v / 4) mod 256)) "")
      else
        let v := (((dec w * 64 + dec x) * 64 + dec y) * 64 + dec z)%N in
        String (ascii_of_N (v / 65536))
          (String (ascii_of_N ((v / 256) mod 256))
             (String (ascii_of_N (v mod 256)) (decode rest)))
  | _ => ""
  end.

End base64.

(** ** [context] *)

Module context.

(** A context: the root, or a context derived from a parent by attaching a
    value, a deadline or a cancellation signal (a nil context is excluded:
    [WithContext] panics on it). *)
Inductive Context : Type :=
| Background
| WithValue (parent : Context) (key val : string)
| WithDeadline (parent : Context) (deadline : Z)
| WithCancel (parent : Context) (canceled : bool).

(** [ctx.Value(key)]. *)
Fixpoint Value (ctx : Context) (key : string) : option string :=
  match ctx with
  | Background => None
  | WithValue parent k v => if String.eqb k key then Some v else Value parent key
  | WithDeadline parent _ => Value parent key
  | WithCancel parent _ => Value parent key
  end.

(** [ctx.Deadline()]: the earliest deadline on the way to the root. *)
Fixpoint Deadline (ctx : Context) : option Z :=
  match ctx with
  | Background => None
  | WithValue parent _ _ => Deadline parent
  | WithDeadline parent d =>
      match Deadline parent with
      | Some d' => Some (Z.min d d')
      | None => Some d
      end
  | WithCancel parent _ => Deadline parent
  end.

End context.

(** ** [io] and [io/ioutil] *)

Module io.

(** A reader is what its [Read] calls will return: [Chunk p next] hands out
    the bytes [p] with a nil error and continues as [next]; [Stop err]
    returns no byte and the error [err], which is [io.EOF] at the regular
    end of the data.  A [Read] that returns bytes together with an error is
    a [Chunk] followed by a [Stop]; a reader that goes on for ever is not
    represented. *)
Inductive Reader : Type :=
| Chunk (p : list byte) (next : Reader)
| Stop (err : error).

(** The results of the [Read] calls that reading up to the first error makes. *)
Fixpoint reads (r : Reader) : list (list byte * option error) :=
  match r with
  | Chunk p next => (p, None) :: reads next
  | Stop err => [([], Some err)]
  end.

(** The bytes a reader holds before it stops. *)
Fixpoint content (r : Reader) : list byte :=
  match r with
  | Chunk p next => (p ++ content next)%list
  | Stop _ => []
  end.

(** The error a reader stops with. *)
Fixpoint stop (r : Reader) : error :=
  match r with
  | Chunk _ next => stop next
  | Stop err => err
  end.

(** [ioutil.ReadAll(r)]: read until an error; [io.EOF] is not reported.
    The slice returned is never nil.  (Memory is unbounded here: the
    [bytes.ErrTooLarge] that [ReadAll] recovers from does not occur.) *)
Fixpoint ReadAll (r : Reader) : list byte * option error :=
  match r with
  | Chunk p next => let '(bs, err) := ReadAll next in ((p ++ bs)%list, err)
  | Stop err => ([], if decide (err = EOF) then None else Some err)
  end.

(** A reader over a byte slice ([bytes.NewReader], [strings.NewReader]). *)
Definition NewReader (p : list byte) : Reader := Chunk p (Stop EOF).

End io.

(** ** [net/http]: requests, responses, headers *)

Module http.
Import gostrings.

Definition MethodGet : string := "GET".
Definition MethodPost : string := "POST".
Definition MethodDelete : string := "DELETE".
Definition StatusNotFound : Z := 404.

(** The bytes of an HTTP token ([isTokenTable]). *)
Definition isToken (c : ascii) : bool :=
  (url.alnum c || url.ch c "!#$%&'*+-.^_`|~")%bool.

(** [validMethod(method)]. *)
Definition validMethod (method : string) : bool :=
  (negb (isEmpty method) && forallb isToken method)%bool.

(** The second loop of [canonicalMIMEHeaderKey]: upper case for the first
    letter and for a letter after a dash, lower case elsewhere. *)
Fixpoint canonical (up : bool) (s : string) : string :=
  match s with
  | "" => ""
  | String c s' =>
      let c' := if (up && between "a" "z" c)%bool then upper c
                else if (negb up && between "A" "Z" c)%bool then lower c
                else c in
      String c' (canonical (Ascii.eqb c' "-") s')
  end.

(** [textproto.CanonicalMIMEHeaderKey(s)]: a key with a byte that is not a
    token byte is left as it is. *)
Definition CanonicalMIMEHeaderKey (s : string) : string :=
  if forallb isToken s then canonical true s else s.

(** [http.Header] is a [map[string][]string]. *)
Abbreviation Header := (gmap string (list string)).

(** [h.Set(key, value)]: the entry becomes the one value. *)
Definition Header_Set (h : Header) (key value : string) : Header :=
  <[CanonicalMIMEHeaderKey key := [value]]> h.

(** [h.Get(key)]: the first value of the entry, or the empty string. *)
Definition Header_Get (h : Header) (key : string) : string :=
  match h !! CanonicalMIMEHeaderKey key with
  | Some (v :: _) => v
  | _ => ""
  end.

(** [http.Request], with the fields a client request carries.  [ctx] is
    the unexported field that [Context()] reads. *)
Record Request : Type := mkRequest {
  ctx : context.Context;
  Method : string;
  URL : url.URL;
  Header_ : Header;
  ReqBody : option io.Reader;
  Host : string
}.

(** [http.Response]: the status code and the body.  The body is never
    nil: [http.Client] and every transport guarantee it. *)
Record Response : Type := mkResponse {
  StatusCode : Z;
  Body : io.Reader
}.

(** [hasPort] and [removeEmptyPort]. *)
Definition hasPort (s : string) : bool :=
  match LastIndexByte s ":", LastIndexByte s "]" with
  | Some i, Some j => (j <? i)%nat
  | Some _, None => true
  | None, _ => false
  end.

Definition removeEmptyPort (host : string) : string :=
  if hasPort host then TrimSuffix host ":" else host.

(** [u.Host = host]. *)
Definition withHost (u : url.URL) (host : string) : url.URL :=
  url.mkURL (url.Scheme u) (url.Opaque u) (url.User u) host
    (url.Path u) (url.RawPath u) (url.ForceQuery u)
    (url.RawQuery u) (url.Fragment u).

(** [http.NewRequest(method, url, body)], which is
    [NewRequestWithContext(context.Background(), method, url, body)]. *)
Definition NewRequest (method urlStr : string) (body : option io.Reader)
  : Request + error :=
  let method := if isEmpty method then "GET" else method in
  if negb (validMethod method) then inr (invalidMethod method)
  else
    match url.Parse urlStr with
    | inr err => inr err
    | inl u =>
        let host := removeEmptyPort (url.Host u) in
        inl (mkRequest context.Background method (withHost u host) ∅ body host)
    end.

Definition setHeader (r : Request) (h : Header) : Request :=
  mkRequest (ctx r) (Method r) (URL r) h (ReqBody r) (Host r).

(** [basicAuth(username, password)]. *)
Definition basicAuth (username password : string) : string :=
  base64.EncodeToString (username +:+ ":" +:+ password).

(** [r.SetBasicAuth(username, password)]. *)
Definition SetBasicAuth (r : Request) (username password : string) : Request :=
  setHeader r (Header_Set (Header_ r) "Authorization"
                 ("Basic " +:+ basicAuth username password)).

(** [r.WithContext(ctx)]: a copy of [r] with the context changed.  [r]
    itself is left as it was. *)
Definition WithContext (r : Request) (c : context.Context) : Request :=
  mkRequest c (Method r) (URL r) (Header_ r) (ReqBody r) (Host r).

(** [r.Context()]. *)
Definition Context (r : Request) : context.Context := ctx r.

End http.

(** ** The client ([httpclient.go]) *)

Module twilio.
Import http.

(** [ErrNotFound]: the package-level value callers compare with. *)
Definition ErrNotFound : error := errors.New "not found".

(** What [Do] returns: a response with a nil error, or a non-nil error
    (whatever response comes with an error is never looked at). *)
Inductive DoResult : Type :=
| DoResponse (resp : Response)
| DoError (err : error).

(** [RequestHandler] abstracts [http.Client]: a type [T] of handlers with a
    [Do] method.  A handler may change when it is invoked, so [Do] returns
    the handler as it is after the call; it leaves the request as it is.  A
    nil handler is not represented (construction never looks at the
    handler, and a call on a nil handler panics). *)
Class RequestHandler (T : Type) := Do : T -> Request -> T * DoResult.

(** The effects of one call, in the order they happen. *)
Inductive event : Type :=
| EvDo (req : Request) (res : DoResult)             (* client.Do(req) returned res *)
| EvRead (p : list byte) (err : option error)       (* resp.Body.Read returned p and err *)
| EvClose.                                          (* resp.Body.Close() *)

Definition isDo (e : event) : bool :=
  match e with EvDo _ _ => true | _ => false end.

Definition isRead (e : event) : bool :=
  match e with EvRead _ _ => true | _ => false end.

Definition isClose (e : event) : bool :=
  match e with EvClose => true | _ => false end.

(** [ioutil.ReadAll(resp.Body)] with the [Read] calls it makes. *)
Definition ReadAll (r : io.Reader) : (list byte * option error) * list event :=
  (io.ReadAll r, map (fun x => EvRead (fst x) (snd x)) (io.reads r)).

Section client.
Context {T : Type} `{RequestHandler T}.

Record apiClient : Type := mkClient {
  url : url.URL;
  accountSID : string;
  authToken : string;
  rh : T                                  (* the embedded RequestHandler *)
}.

(** [NewHTTPClient(accountSID, authToken, baseURL, rh)]: the pair of the
    client (nil is [None]) and the error. *)
Definition NewHTTPClient (accountSID authToken baseURL : string) (rh : T)
  : option apiClient * option error :=
  match url.Parse baseURL with
  | inr err => (None, Some (errors.Wrap err "could not parse url"))
  | inl url => (Some (mkClient url accountSID authToken rh), None)
  end.

(** What a call leaves behind: the two values returned, the handler after
    the call, and the trace of the effects. *)
Record Outcome : Type := mkOutcome {
  bytes : option (list byte);
  err : option error;
  handler : T;
  trace : list event
}.

(** [client.request(ctx, method, path, body)].  The deferred
    [resp.Body.Close()] runs after the returned values are computed, on
    each path below the [defer] statement. *)
Definition request (client : apiClient) (ctx : context.Context)
    (method path : string) (body : option io.Reader) : Outcome :=
  match http.NewRequest method (url.URL_String (url client) +:+ path) body with
  | inr err =>
      mkOutcome None (Some (errors.Wrap err "could not create request")) (rh client) []
  | inl req =>
      let req := SetBasicAuth req (accountSID client) (authToken client) in
      let req := setHeader req
                   (Header_Set (Header_ req) "Content-Type"
                      "application/x-www-form-urlencoded") in
      let _ := WithContext req ctx in
      let '(rh', res) := Do (rh client) req in
      match res with
      | DoError err =>
          mkOutcome None
            (Some (errors.Wrapf err "could not get a response for %s"
                     [fmt.Str (url.URL_String (URL req))]))
            rh' [EvDo req res]
      | DoResponse resp =>
          let statusCode := StatusCode resp in
          let '(bs, err, evs) :=
            if ((statusCode <? 200)%Z || (400 <=? statusCode)%Z)%bool then
              if (statusCode =? StatusNotFound)%Z then
                (None, Some ErrNotFound, [])
              else
                (None,
                 Some (errors.Errorf "unexpected status code: %d" [fmt.Int statusCode]),
                 [])
            else
              let '(bs, err, evs) := ReadAll (Body resp) in (Some bs, err, evs) in
          mkOutcome bs err rh' ([EvDo req res] ++ evs ++ [EvClose])%list
      end
  end.

Definition Get (client : apiClient) (ctx : context.Context) (path : string) : Outcome :=
  request client ctx MethodGet path None.

Definition Post (client : apiClient) (ctx : context.Context) (path : string)
    (body : option io.Reader) : Outcome :=
  request client ctx MethodPost path body.

Definition Delete (client : apiClient) (ctx : context.Context) (path : string) : Outcome :=
  request client ctx MethodDelete path None.

(** A call of one of the three methods of [HTTPClient]. *)
Inductive call : Type :=
| CallGet (path : string)
| CallPost (path : string) (body : option io.Reader)
| CallDelete (path : string).

Definition run (client : apiClient) (ctx : context.Context) (c : call) : Outcome :=
  match c with
  | CallGet path => Get client ctx path
  | CallPost path body => Post client ctx path body
  | CallDelete path => Delete client ctx path
  end.

End client.

Arguments apiClient T : clear implicits.
Arguments Outcome T : clear implicits.

(** The handler of the tests ([httpclient_test.go]). *)
Record mockRequestHandler : Type := mkMock {
  requestInvoked : bool;
  requestHandlerFunc : Request -> DoResult
}.

#[export] Instance mockRequestHandler_Do : RequestHandler mockRequestHandler :=
  fun m r => (mkMock true (requestHandlerFunc m), requestHandlerFunc m r).

End twilio.
Import twilio.

(** ** The shape of a call

    Names for the parts of [request] that the properties speak about. *)

Section shape.
Context {T : Type} `{RequestHandler T}.

Definition method_of (c : call) : string :=
  match c with
  | CallGet _ => http.MethodGet
  | CallPost _ _ => http.MethodPost
  | CallDelete _ => http.MethodDelete
  end.

Definition path_of (c : call) : string :=
  match c with
  | CallGet path | CallPost path _ | CallDelete path => path
  end.

Definition body_of (c : call) : option io.Reader :=
  match c with
  | CallPost _ body => body
  | _ => None
  end.

(** The string [request] builds the request from. *)
Definition target (client : apiClient T) (c : call) : string :=
  url.URL_String (url client) +:+ path_of c.

(** The request as [request] hands it to [Do]: credentials and content
    type set on the request [http.NewRequest] made. *)
Definition prepared (client : apiClient T) (req : http.Request) : http.Request :=
  let req := http.SetBasicAuth req (accountSID client) (authToken client) in
  http.setHeader req
    (http.Header_Set (http.Header_ req) "Content-Type"
       "application/x-www-form-urlencoded").

(** What [request] does once [Do] has returned. *)
Definition respond (req : http.Request) (rh' : T) (res : DoResult) : Outcome T :=
  match res with
  | DoError err =>
      mkOutcome None
        (Some (errors.Wrapf err "could not get a response for %s"
                 [fmt.Str (url.URL_String (http.URL req))]))
        rh' [EvDo req res]
  | DoResponse resp =>
      let statusCode := http.StatusCode resp in
      let '(bs, err, evs) :=
        if ((statusCode <? 200)%Z || (400 <=? statusCode)%Z)%bool then
          if (statusCode =? http.StatusNotFound)%Z then
            (None, Some ErrNotFound, [])
          else
            (None,
             Some (errors.Errorf "unexpected status code: %d" [fmt.Int statusCode]),
             [])
        else
          let '(bs, err, evs) := ReadAll (http.Body resp) in (Some bs, err, evs) in
      mkOutcome bs err rh' ([EvDo req res] ++ evs ++ [EvClose])%list
  end.

(** Whether a status code counts as a success. *)
Definition success (statusCode : Z) : Prop := 200 <= statusCode < 400.

(** The body was read to its end: some [Read] returned the error the body
    stops with. *)
Definition drained (tr : list event) : Prop :=
  exists p e, In (EvRead p (Some e)) tr.

(** The URLs, in string form, of the requests handed to [Do]. *)
Definition targets (tr : list event) : list string :=
  flat_map (fun e => match e with
                     | EvDo req _ => [url.URL_String (http.URL req)]
                     | _ => []
                     end) tr.

End shape.

(** ** The scenarios of the tests ([httpclient_test.go]) *)

Module scenario.

Definition baseURL : string := "https://twilio.com/v2".
Definition acc : string := "acc".
Definition auth : string := "auth".

(** What [url.Parse(baseURL)] returns. *)
Definition parsedBaseURL : url.URL :=
  url.mkURL "https" "" None "twilio.com" "/v2" "" false "" "".

(** The client [setup] makes, with the given [requestHandlerFunc]. *)
Definition client (f : http.Request -> DoResult) : apiClient mockRequestHandler :=
  mkClient parsedBaseURL acc auth (mkMock false f).

(** A handler function that answers every request with the status code
    and the body given. *)
Definition answer (statusCode : Z) (body : io.Reader) : http.Request -> DoResult :=
  fun _ => DoResponse (http.mkResponse statusCode body).

Definition emptyObject : io.Reader := io.NewReader (list_byte_of_string "{}").

(** A body whose second [Read] fails ([io.ErrUnexpectedEOF]). *)
Definition ErrUnexpectedEOF : error := errorString "unexpected EOF".
Definition brokenBody : io.Reader :=
  io.Chunk (list_byte_of_string "{") (io.Stop ErrUnexpectedEOF).

(** The error of the test of a failing transport. *)
Definition respErr : error := errors.New "test".

(** The request [Get(ctx, path)] hands to the transport, for a path that
    parses to itself. *)
Definition sent (method path : string) : http.Request :=
  prepared (client (answer 200 emptyObject))
    (http.mkRequest context.Background method
       (url.mkURL "https" "" None "twilio.com" ("/v2" +:+ path) "" false "" "")
       ∅ None "twilio.com").

(** The context of the test of a successful request. *)
Definition ctxWithKey : context.Context :=
  context.WithValue context.Background "key" "test".

(** The request [Post(ctx, "/post", body)] hands to the transport. *)
Definition sentPost (body : option io.Reader) : http.Request :=
  prepared (client (answer 200 emptyObject))
    (http.mkRequest context.Background "POST"
       (url.mkURL "https" "" None "twilio.com" "/v2/post" "" false "" "")
       ∅ body "twilio.com").

End scenario.

(** * Properties *)

(** ** Facts about the library functions *)

Lemma ReadAll_content (r : io.Reader) :
  io.ReadAll r
  = (io.content r, if decide (io.stop r = EOF) then None else Some (io.stop r)).
Proof.
  induction r as [p next IH | e]; simpl.
  - rewrite IH. reflexivity.
  - reflexivity.
Qed.

Lemma append_empty_r (s : string) : s +:+ "" = s.
Proof.
  induction s as [| c s IH]; [reflexivity |].
  change (String c (s +:+ "") = String c s). now rewrite IH.
Qed.

(** [Itoa] prints the number: reading the digits back gives it again. *)
Lemma Itoa_roundtrip (i : Z) :
  option_map Z.of_int (NilEmpty.int_of_string (strconv.Itoa i)) = Some i.
Proof.
  unfold strconv.Itoa. rewrite NilEmpty.isi. simpl. f_equal. apply DecimalZ.of_to.
Qed.

Lemma reads_not_nil (r : io.Reader) : io.reads r <> [].
Proof. destruct r; discriminate. Qed.

(** The last [Read] of a reader read to its end returns the stop error. *)
Lemma reads_last (r : io.Reader) :
  exists l, io.reads r = (l ++ [([], Some (io.stop r))])%list
            /\ Forall (fun x => snd x = None) l.
Proof.
  induction r as [p next [l [E F]] | e]; simpl.
  - exists ((p, None) :: l). rewrite E. split; [reflexivity | constructor; auto].
  - exists []. split; [reflexivity | constructor].
Qed.

Lemma Cause_Wrap (e : error) (msg : string) :
  errors.Cause (errors.Wrap e msg) = errors.Cause e.
Proof. reflexivity. Qed.

Lemma chain_self (e : error) : In e (errors.chain e).
Proof. destruct e; simpl; auto. Qed.

Lemma chain_Wrap (e : error) (msg : string) : In e (errors.chain (errors.Wrap e msg)).
Proof. simpl. right. right. apply chain_self. Qed.

(** ** The shape of a call *)

Section properties.
Context {T : Type} {RH : RequestHandler T} {Q : Strconv}.

Lemma run_request (client : apiClient T) ctx (c : call) :
  run client ctx c = request client ctx (method_of c) (path_of c) (body_of c).
Proof. destruct c; reflexivity. Qed.

(** For the three verbs, [http.NewRequest] fails exactly when the target
    does not parse. *)
Lemma NewRequest_verb (c : call) (urlStr : string) :
  http.NewRequest (method_of c) urlStr (body_of c)
  = match url.Parse urlStr with
    | inr err => inr err
    | inl u =>
        let host := http.removeEmptyPort (url.Host u) in
        inl (http.mkRequest context.Background (method_of c)
               (http.withHost u host) ∅ (body_of c) host)
    end.
Proof. destruct c; reflexivity. Qed.

Lemma request_unfold (client : apiClient T) ctx (c : call) :
  run client ctx c
  = match http.NewRequest (method_of c) (target client c) (body_of c) with
    | inr err =>
        mkOutcome None (Some (errors.Wrap err "could not create request"))
          (rh client) []
    | inl req =>
        respond (prepared client req)
          (fst (Do (rh client) (prepared client req)))
          (snd (Do (rh client) (prepared client req)))
    end.
Proof.
  rewrite run_request. unfold request, target.
  destruct (http.NewRequest _ _ _) as [req | e]; [| reflexivity].
  fold (prepared client req).
  destruct (Do (rh client) (prepared client req)) as [rh' res].
  destruct res; reflexivity.
Qed.

Lemma Do_not_Read l req res :
  ~ In (EvDo req res) (map (fun x : list byte * option error => EvRead (fst x) (snd x)) l).
Proof. induction l; simpl; [tauto | intros [E | I]; [discriminate | auto]]. Qed.

Lemma Close_not_Read l :
  List.filter isClose
    (map (fun x : list byte * option error => EvRead (fst x) (snd x)) l) = [].
Proof. induction l; simpl; auto. Qed.

(** The only [EvDo] of a trace is its first event. *)
Lemma respond_Do req (rh' : T) res req1 res1 :
  In (EvDo req1 res1) (trace (respond req rh' res)) -> req1 = req /\ res1 = res.
Proof.
  unfold respond. destruct res as [resp | e].
  - destruct ((_ <? _)%Z || _)%bool; [destruct (_ =? _)%Z |].
    + simpl. intros [E | [E | []]]; [inversion E; auto | discriminate].
    + simpl. intros [E | [E | []]]; [inversion E; auto | discriminate].
    + unfold ReadAll. destruct (io.ReadAll _) as [bs e]. simpl.
      intros [E | I]; [inversion E; auto |].
      apply in_app_or in I. destruct I as [I | [E | []]];
        [apply Do_not_Read in I; contradiction | discriminate].
  - simpl. intros [E | []]. inversion E; auto.
Qed.

(** A call whose trace has [Do] returning [res] on [req]: the request was
    made by [http.NewRequest] and prepared, and the call ends as [respond]
    says. *)
Lemma run_Do (client : apiClient T) ctx (c : call) req res :
  In (EvDo req res) (trace (run client ctx c)) ->
  exists req0,
    http.NewRequest (method_of c) (target client c) (body_of c) = inl req0
    /\ req = prepared client req0
    /\ snd (Do (rh client) req) = res
    /\ run client ctx c = respond req (fst (Do (rh client) req)) res.
Proof.
  rewrite request_unfold.
  destruct (http.NewRequest _ _ _) as [req0 | e]; simpl; [| tauto].
  intros I. apply respond_Do in I. destruct I as [-> <-].
  exists req0. auto.
Qed.

(** ** The outcome by status code *)

(** C1 (amended): when the transport returns a response whose status code
    is in [200,400) and whose body reads to [io.EOF] without a read error,
    the call returns exactly the bytes of the body and a nil error. *)
Theorem success_returns_body (client : apiClient T) ctx (c : call) req resp :
  In (EvDo req (DoResponse resp)) (trace (run client ctx c)) ->
  success (http.StatusCode resp) ->
  io.stop (http.Body resp) = EOF ->
  bytes (run client ctx c) = Some (io.content (http.Body resp))
  /\ err (run client ctx c) = None.
Proof.
  intros I [Hlo Hhi] Hstop.
  destruct (run_Do _ _ _ _ _ I) as (req0 & _ & _ & _ & ->).
  unfold respond, ReadAll.
  replace ((_ <? 200)%Z || _)%bool with false by lia.
  rewrite ReadAll_content, Hstop. simpl.
  destruct (decide (EOF = EOF)); [auto | congruence].
Qed.

(** C2: when the transport returns a response with status code 404, the
    call returns no bytes and the error [ErrNotFound] itself, whatever the
    verb and whatever the body holds. *)
Theorem not_found_returns_sentinel (client : apiClient T) ctx (c : call) req resp :
  In (EvDo req (DoResponse resp)) (trace (run client ctx c)) ->
  http.StatusCode resp = 404 ->
  bytes (run client ctx c) = None
  /\ err (run client ctx c) = Some ErrNotFound.
Proof.
  intros I Hc.
  destruct (run_Do _ _ _ _ _ I) as (req0 & _ & _ & _ & ->).
  unfold respond. rewrite Hc. simpl. auto.
Qed.

(** C3: when the transport returns a response whose status code [c] is
    outside [200,400) and is not 404, the call returns no bytes and an
    error whose message is "unexpected status code: " followed by [c] in
    decimal with no padding: the first 24 characters are that text, and
    what follows is read by the standard library as a decimal number in
    normal form (no leading zero, no sign but a minus) whose value is
    [c]. *)
Theorem unexpected_status_message (client : apiClient T) ctx (c : call) req resp :
  In (EvDo req (DoResponse resp)) (trace (run client ctx c)) ->
  ~ success (http.StatusCode resp) ->
  http.StatusCode resp <> 404 ->
  bytes (run client ctx c) = None
  /\ exists e,
       err (run client ctx c) = Some e
       /\ errors.Error e
          = "unexpected status code: " +:+ strconv.Itoa (http.StatusCode resp)
       /\ gostrings.take 24 (errors.Error e) = "unexpected status code: "
       /\ exists d,
            NilEmpty.int_of_string (gostrings.drop 24 (errors.Error e)) = Some d
            /\ Decimal.norm d = d
            /\ Z.of_int d = http.StatusCode resp.
Proof.
  intros I Hc H404. unfold success in Hc.
  destruct (run_Do _ _ _ _ _ I) as (req0 & _ & _ & _ & ->).
  unfold respond.
  replace ((_ <? 200)%Z || _)%bool with true by lia.
  replace (_ =? http.StatusNotFound)%Z with false by (unfold http.StatusNotFound; lia).
  split; [reflexivity |].
  eexists. split; [reflexivity |].
  assert (E : errors.Error
                (errors.Errorf "unexpected status code: %d"
                   [fmt.Int (http.StatusCode resp)])
              = "unexpected status code: " +:+ strconv.Itoa (http.StatusCode resp)).
  { transitivity ("unexpected status code: "
                  +:+ (strconv.Itoa (http.StatusCode resp) +:+ ""));
      [reflexivity | rewrite append_empty_r; reflexivity]. }
  rewrite E. split; [reflexivity |]. split; [reflexivity |].
  change (gostrings.drop 24
            ("unexpected status code: " +:+ strconv.Itoa (http.StatusCode resp)))
    with (strconv.Itoa (http.StatusCode resp)).
  exists (Z.to_int (http.StatusCode resp)).
  unfold strconv.Itoa. rewrite NilEmpty.isi. split; [reflexivity |].
  split; [| apply DecimalZ.of_to].
  rewrite <- DecimalZ.to_of, DecimalZ.of_to. reflexivity.
Qed.

(** C10: when the status code is in [200,400) and reading the body stops
    with an error other than [io.EOF], the call returns that very error,
    not wrapped, together with the bytes read before it. *)
Theorem read_error_returned_raw (client : apiClient T) ctx (c : call) req resp :
  In (EvDo req (DoResponse resp)) (trace (run client ctx c)) ->
  success (http.StatusCode resp) ->
  io.stop (http.Body resp) <> EOF ->
  bytes (run client ctx c) = Some (io.content (http.Body resp))
  /\ err (run client ctx c) = Some (io.stop (http.Body resp)).
Proof.
  intros I [Hlo Hhi] Hstop.
  destruct (run_Do _ _ _ _ _ I) as (req0 & _ & _ & _ & ->).
  unfold respond, ReadAll.
  replace ((_ <? 200)%Z || _)%bool with false by lia.
  rewrite ReadAll_content. simpl.
  destruct (decide (io.stop (http.Body resp) = EOF)); [contradiction | auto].
Qed.

(** ** Construction *)

(** C4 (amended): construction fails, with an error that wraps the parse
    failure, exactly when [url.Parse] rejects [baseURL]; when it succeeds
    the client holds the URL that [url.Parse] returned (which may be a
    relative reference) and the three other arguments; and exactly one of
    the client and the error is returned. *)
Theorem construction_fails_iff_parse_fails
    (accountSID authToken baseURL : string) (rh : T) :
  (is_Some (snd (NewHTTPClient accountSID authToken baseURL rh))
   <-> exists e, url.Parse baseURL = inr e)
  /\ (forall e', snd (NewHTTPClient accountSID authToken baseURL rh) = Some e' ->
      fst (NewHTTPClient accountSID authToken baseURL rh) = None
      /\ exists e, url.Parse baseURL = inr e
                   /\ errors.causer e' = Some (withMessage e "could not parse url")
                   /\ In e (errors.chain e')
                   /\ errors.Error e' = "could not parse url: " +:+ errors.Error e)
  /\ (snd (NewHTTPClient accountSID authToken baseURL rh) = None ->
      exists u, url.Parse baseURL = inl u
                /\ fst (NewHTTPClient accountSID authToken baseURL rh)
                   = Some (mkClient u accountSID authToken rh)).
Proof.
  unfold NewHTTPClient.
  destruct (url.Parse baseURL) as [u | e]; simpl.
  - split; [split |].
    + intros [x Hx]. discriminate.
    + intros [e He]. discriminate.
    + split; [discriminate |]. intros _. exists u. auto.
  - split; [split |].
    + intros _. exists e. reflexivity.
    + intros _. eexists. reflexivity.
    + split; [| discriminate].
      intros e' E. inversion E. subst e'. split; [reflexivity |].
      exists e. repeat split. apply chain_Wrap.
Qed.

(** ** The transport *)

(** C5: a call invokes [Do] at most once; and when the concatenated URL
    does not parse, the call returns no bytes and the error of
    [http.NewRequest] wrapped as "could not create request", and [Do] is
    not invoked. *)
Theorem transport_invoked_at_most_once (client : apiClient T) ctx (c : call) :
  (length (List.filter isDo (trace (run client ctx c))) <= 1)%nat
  /\ (forall e, url.Parse (target client c) = inr e ->
      bytes (run client ctx c) = None
      /\ err (run client ctx c) = Some (errors.Wrap e "could not create request")
      /\ errors.Error (errors.Wrap e "could not create request")
         = "could not create request: " +:+ errors.Error e
      /\ trace (run client ctx c) = []
      /\ handler (run client ctx c) = rh client).
Proof.
  rewrite request_unfold, NewRequest_verb.
  destruct (url.Parse (target client c)) as [u | e0]; simpl; split.
  - unfold respond.
    destruct (snd (Do _ _)) as [resp | e].
    + destruct ((_ <? _)%Z || _)%bool; [destruct (_ =? _)%Z |]; simpl; try lia.
      unfold ReadAll. destruct (io.ReadAll _) as [bs e]. simpl.
      rewrite List.filter_app. simpl. rewrite length_app. simpl.
      assert (E : List.filter isDo
                    (map (fun x : list byte * option error => EvRead (fst x) (snd x))
                       (io.reads (http.Body resp))) = []).
      { induction (io.reads (http.Body resp)); simpl; auto. }
      rewrite E. simpl. lia.
    + simpl. lia.
  - discriminate.
  - lia.
  - intros e E. inversion E. subst. auto.
Qed.


(** The request that reaches the transport carries the background context
    of [http.NewRequest], whatever context the caller supplied: the copy
    that [WithContext] returns is dropped. *)
Lemma Do_request_context (client : apiClient T) ctx (c : call) req res :
  In (EvDo req res) (trace (run client ctx c)) ->
  http.Context req = context.Background.
Proof.
  intros I.
  destruct (run_Do _ _ _ _ _ I) as (req0 & E & -> & _).
  rewrite NewRequest_verb in E.
  destruct (url.Parse _); inversion E. reflexivity.
Qed.

(** So no value, deadline or cancellation of the caller's context can
    reach the transport through the request. *)
Lemma Do_request_no_deadline (client : apiClient T) ctx (c : call) req res :
  In (EvDo req res) (trace (run client ctx c)) ->
  context.Deadline (http.Context req) = None
  /\ forall key, context.Value (http.Context req) key = None.
Proof.
  intros I. rewrite (Do_request_context _ _ _ _ _ I). split; reflexivity.
Qed.

(** C8 (amended): the request that reaches the transport has exactly two
    header entries, [Authorization] with the one value made from the stored
    credentials and [Content-Type] with the one value
    [application/x-www-form-urlencoded]; its method is the verb of the
    call; and its URL is what [url.Parse] makes of the concatenation of the
    string form of the stored URL and the path (with an empty port
    removed from the host). *)
Theorem request_credentials_and_target (client : apiClient T) ctx (c : call) req res :
  In (EvDo req res) (trace (run client ctx c)) ->
  http.Header_ req
  = <["Content-Type" := ["application/x-www-form-urlencoded"]]>
      (<["Authorization" :=
           ["Basic " +:+ base64.EncodeToString
                           (accountSID client +:+ ":" +:+ authToken client)]]> ∅)
  /\ http.Method req = method_of c
  /\ exists u,
       url.Parse (url.URL_String (url client) +:+ path_of c) = inl u
       /\ http.URL req = http.withHost u (http.removeEmptyPort (url.Host u)).
Proof.
  intros I.
  destruct (run_Do _ _ _ _ _ I) as (req0 & E & -> & _).
  rewrite NewRequest_verb in E. unfold target in E.
  destruct (url.Parse _) as [u | e]; inversion E.
  split; [reflexivity |]. split; [reflexivity |].
  exists u. auto.
Qed.

(** ** The response body *)

(** C9 (amended): when the transport returns a response, the trace of the
    call is the invocation of [Do], then the [Read] calls on the body, then
    one [Close], which comes last.  On the success path the [Read] calls
    are those that read the body to its end; on the two error paths there
    is none: the body is closed unread. *)
Theorem body_closed_on_every_path (client : apiClient T) ctx (c : call) req resp :
  In (EvDo req (DoResponse resp)) (trace (run client ctx c)) ->
  exists evs,
    trace (run client ctx c) = (EvDo req (DoResponse resp) :: evs ++ [EvClose])%list
    /\ Forall (fun e => isRead e = true) evs
    /\ List.filter isClose (trace (run client ctx c)) = [EvClose]
    /\ (success (http.StatusCode resp) ->
        evs = map (fun x => EvRead (fst x) (snd x)) (io.reads (http.Body resp))
        /\ drained evs)
    /\ (~ success (http.StatusCode resp) -> evs = []).
Proof.
  intros I.
  destruct (run_Do _ _ _ _ _ I) as (req0 & _ & _ & _ & ->).
  unfold respond, success.
  destruct ((_ <? _)%Z || _)%bool eqn:Hc; [destruct (_ =? _)%Z |].
  - exists []. simpl. repeat split; auto; lia.
  - exists []. simpl. repeat split; auto; lia.
  - unfold ReadAll. destruct (io.ReadAll _) as [bs e]. simpl.
    eexists. split; [reflexivity |]. split; [| split; [| split]].
    + induction (io.reads (http.Body resp)); simpl; constructor; auto.
    + rewrite List.filter_app. simpl.
      rewrite (Close_not_Read (io.reads (http.Body resp))). reflexivity.
    + intros _. split; [reflexivity |].
      destruct (reads_last (http.Body resp)) as (l & -> & _).
      exists [], (io.stop (http.Body resp)).
      rewrite map_app. apply in_or_app. right. left. reflexivity.
    + lia.
Qed.

End properties.

(** * The properties on the scenarios of the tests *)

Section scenarios.
Import scenario.

(** [strconv.Itoa] on the status codes the specification samples. *)
Example Itoa_samples :
  List.map strconv.Itoa [400; 401; 402; 403; 405; 500; 502; 503; 0; -1]
  = ["400"; "401"; "402"; "403"; "405"; "500"; "502"; "503"; "0"; "-1"].
Proof. reflexivity. Qed.

Example Parse_baseURL : url.Parse baseURL = inl parsedBaseURL.
Proof. reflexivity. Qed.

Example String_baseURL : url.URL_String parsedBaseURL = baseURL.
Proof. reflexivity. Qed.

(** [TestNewClient]. *)
Example NewClient_correct_configuration f :
  NewHTTPClient acc auth baseURL (mkMock false f) = (Some (client f), None).
Proof. reflexivity. Qed.

Example NewClient_invalid_base_URL f :
  NewHTTPClient acc auth "%" (mkMock false f)
  = (None, Some (errors.Wrap (urlError "parse" "%" (EscapeError "%"))
                   "could not parse url")).
Proof. reflexivity. Qed.

(** [TestGet], [TestPost], [TestDelete]: a successful request. *)
Example Get_successful :
  bytes (Get (client (answer 200 emptyObject)) context.Background "/get")
  = Some (list_byte_of_string "{}")
  /\ err (Get (client (answer 200 emptyObject)) context.Background "/get") = None
  /\ targets (trace (Get (client (answer 200 emptyObject)) context.Background "/get"))
     = [baseURL +:+ "/get"]
  /\ requestInvoked
       (handler (Get (client (answer 200 emptyObject)) context.Background "/get"))
     = true.
Proof. vm_compute. auto. Qed.

Example Post_successful :
  bytes (Post (client (answer 200 emptyObject)) context.Background "/post"
           (Some emptyObject))
  = Some (list_byte_of_string "{}")
  /\ err (Post (client (answer 200 emptyObject)) context.Background "/post"
            (Some emptyObject)) = None.
Proof. vm_compute. auto. Qed.

Example Delete_successful :
  bytes (Delete (client (answer 200 emptyObject)) context.Background "/delete")
  = Some (list_byte_of_string "{}")
  /\ err (Delete (client (answer 200 emptyObject)) context.Background "/delete") = None.
Proof. vm_compute. auto. Qed.

(** [TestGet]: an invalid request URL; the handler is not invoked. *)
Example Get_invalid_url :
  is_Some (err (Get (client (answer 500 emptyObject)) context.Background "/get%2"))
  /\ requestInvoked
       (handler (Get (client (answer 500 emptyObject)) context.Background "/get%2"))
     = false.
Proof. vm_compute. eauto. Qed.

(** The message of the error, or the empty string for a nil error. *)
Example unexpected_status_samples :
  List.map
    (fun code =>
       match err (Get (client (answer code emptyObject)) context.Background "/get") with
       | Some e => errors.Error (Q := strconv.QuoteASCII) e
       | None => ""
       end)
    [400; 401; 402; 403; 405; 500; 502; 503; 199; 0; -1]
  = ["unexpected status code: 400"; "unexpected status code: 401";
     "unexpected status code: 402"; "unexpected status code: 403";
     "unexpected status code: 405"; "unexpected status code: 500";
     "unexpected status code: 502"; "unexpected status code: 503";
     "unexpected status code: 199"; "unexpected status code: 0";
     "unexpected status code: -1"].
Proof. vm_compute. reflexivity. Qed.

(** A base URL with an empty port: [url.Parse] keeps the colon in the host,
    and the request that reaches the transport has the host without it. *)
Example empty_port_removed :
  url.Parse "https://twilio.com:/v2/get"
  = inl (url.mkURL "https" "" None "twilio.com:" "/v2/get" "" false "" "")
  /\ List.map
       (fun e => match e with
                 | EvDo req _ => url.Host (http.URL req)
                 | _ => ""
                 end)
       (trace (Get (mkClient
                      (url.mkURL "https" "" None "twilio.com:" "/v2" "" false "" "")
                      acc auth (mkMock false (fun _ => DoError respErr)))
                 context.Background "/get"))
     = ["twilio.com"].
Proof. split; vm_compute; reflexivity. Qed.

(** ** The claims on concrete calls *)

(** Status 200 with the body [{}]: the bytes of the body, no error. *)
Lemma success_returns_body_witness :
  In (EvDo (sent "GET" "/get") (DoResponse (http.mkResponse 200 emptyObject)))
     (trace (run (client (answer 200 emptyObject)) context.Background (CallGet "/get")))
  /\ (bytes (run (client (answer 200 emptyObject)) context.Background (CallGet "/get"))
      = Some (io.content (http.Body (http.mkResponse 200 emptyObject)))
      /\ err (run (client (answer 200 emptyObject)) context.Background (CallGet "/get"))
         = None).
Proof.
  assert (I : In (EvDo (sent "GET" "/get")
                    (DoResponse (http.mkResponse 200 emptyObject)))
                 (trace (run (client (answer 200 emptyObject)) context.Background
                           (CallGet "/get")))).
  { vm_compute. left. reflexivity. }
  split; [exact I |].
  apply (success_returns_body _ _ _ _ _ I).
  - unfold success. simpl. lia.
  - reflexivity.
Defined.

(** C1 as stated fails: with status 200 and a body whose second [Read]
    fails, the call returns the read error, not a nil error. *)
Lemma success_with_read_error_counterexample :
  In (EvDo (sent "GET" "/get") (DoResponse (http.mkResponse 200 brokenBody)))
     (trace (Get (client (answer 200 brokenBody)) context.Background "/get"))
  /\ success (http.StatusCode (http.mkResponse 200 brokenBody))
  /\ err (Get (client (answer 200 brokenBody)) context.Background "/get")
     = Some ErrUnexpectedEOF
  /\ ~ (bytes (Get (client (answer 200 brokenBody)) context.Background "/get")
        = Some (io.content brokenBody)
        /\ err (Get (client (answer 200 brokenBody)) context.Background "/get")
           = None).
Proof.
  split; [vm_compute; left; reflexivity |].
  split; [unfold success; simpl; lia |].
  split; [reflexivity |].
  intros [_ E]. vm_compute in E. discriminate.
Qed.

(** Status 404: [ErrNotFound]. *)
Lemma not_found_returns_sentinel_witness :
  In (EvDo (sent "DELETE" "/delete") (DoResponse (http.mkResponse 404 emptyObject)))
     (trace (run (client (answer 404 emptyObject)) context.Background
               (CallDelete "/delete")))
  /\ (bytes (run (client (answer 404 emptyObject)) context.Background
               (CallDelete "/delete")) = None
      /\ err (run (client (answer 404 emptyObject)) context.Background
                (CallDelete "/delete")) = Some ErrNotFound).
Proof.
  assert (I : In (EvDo (sent "DELETE" "/delete")
                    (DoResponse (http.mkResponse 404 emptyObject)))
                 (trace (run (client (answer 404 emptyObject)) context.Background
                           (CallDelete "/delete")))).
  { vm_compute. left. reflexivity. }
  split; [exact I |].
  apply (not_found_returns_sentinel _ _ _ _ _ I). reflexivity.
Defined.

(** Status 500: the message is the text "unexpected status code: 500". *)
Lemma unexpected_status_message_witness :
  In (EvDo (sent "GET" "/get") (DoResponse (http.mkResponse 500 emptyObject)))
     (trace (run (client (answer 500 emptyObject)) context.Background (CallGet "/get")))
  /\ (bytes (run (client (answer 500 emptyObject)) context.Background (CallGet "/get"))
      = None
      /\ exists e,
           err (run (client (answer 500 emptyObject)) context.Background
                  (CallGet "/get")) = Some e
           /\ errors.Error (Q := strconv.QuoteASCII) e = "unexpected status code: 500").
Proof.
  assert (I : In (EvDo (sent "GET" "/get")
                    (DoResponse (http.mkResponse 500 emptyObject)))
                 (trace (run (client (answer 500 emptyObject)) context.Background
                           (CallGet "/get")))).
  { vm_compute. left. reflexivity. }
  split; [exact I |].
  assert (S : ~ success (http.StatusCode (http.mkResponse 500 emptyObject)))
    by (unfold success; simpl; lia).
  assert (N : http.StatusCode (http.mkResponse 500 emptyObject) <> 404)
    by (simpl; lia).
  destruct (unexpected_status_message (Q := strconv.QuoteASCII) _ _ _ _ _ I S N)
    as (B & e & E & M & _).
  split; [exact B |].
  exists e. split; [exact E |]. rewrite M. reflexivity.
Defined.

(** A body that fails after one byte: that byte and the read error. *)
Lemma read_error_returned_raw_witness :
  In (EvDo (sent "GET" "/get") (DoResponse (http.mkResponse 200 brokenBody)))
     (trace (run (client (answer 200 brokenBody)) context.Background (CallGet "/get")))
  /\ (bytes (run (client (answer 200 brokenBody)) context.Background (CallGet "/get"))
      = Some (io.content (http.Body (http.mkResponse 200 brokenBody)))
      /\ err (run (client (answer 200 brokenBody)) context.Background (CallGet "/get"))
         = Some (io.stop (http.Body (http.mkResponse 200 brokenBody)))).
Proof.
  assert (I : In (EvDo (sent "GET" "/get")
                    (DoResponse (http.mkResponse 200 brokenBody)))
                 (trace (run (client (answer 200 brokenBody)) context.Background
                           (CallGet "/get")))).
  { vm_compute. left. reflexivity. }
  split; [exact I |].
  apply (read_error_returned_raw _ _ _ _ _ I).
  - unfold success. simpl. lia.
  - simpl. unfold ErrUnexpectedEOF. discriminate.
Defined.

(** The base URL [%] is rejected, and the error wraps the parse failure. *)
Lemma construction_fails_iff_parse_fails_witness :
  is_Some (snd (NewHTTPClient acc auth "%" (mkMock false (answer 200 emptyObject))))
  /\ fst (NewHTTPClient acc auth "%" (mkMock false (answer 200 emptyObject))) = None.
Proof.
  pose proof (construction_fails_iff_parse_fails (Q := strconv.QuoteASCII)
                acc auth "%" (mkMock false (answer 200 emptyObject))) as (F & W & _).
  split.
  - apply F. eexists. reflexivity.
  - apply (W (errors.Wrap (urlError "parse" "%" (EscapeError "%")) "could not parse url")).
    reflexivity.
Defined.

(** C4 as stated fails: [/v2] does not parse as an absolute URL, and
    yet construction succeeds, with a stored URL that is not absolute. *)
Lemma relative_baseURL_counterexample :
  (forall u, url.Parse "/v2" = inl u -> url.IsAbs u = false)
  /\ snd (NewHTTPClient acc auth "/v2" (mkMock false (answer 200 emptyObject))) = None
  /\ exists c,
       fst (NewHTTPClient acc auth "/v2" (mkMock false (answer 200 emptyObject)))
       = Some c
       /\ url.IsAbs (url c) = false.
Proof.
  split; [| split].
  - intros u E. vm_compute in E. inversion E. reflexivity.
  - reflexivity.
  - eexists. split; reflexivity.
Qed.

(** The path [/get%2] does not parse: an error, and no invocation. *)
Lemma transport_invoked_at_most_once_witness :
  url.Parse (target (client (answer 500 emptyObject)) (CallGet "/get%2"))
  = inr (urlError "parse" "https://twilio.com/v2/get%2" (EscapeError "%2"))
  /\ bytes (run (client (answer 500 emptyObject)) context.Background (CallGet "/get%2"))
     = None
  /\ trace (run (client (answer 500 emptyObject)) context.Background (CallGet "/get%2"))
     = [].
Proof.
  assert (E : url.Parse (target (client (answer 500 emptyObject)) (CallGet "/get%2"))
              = inr (urlError "parse" "https://twilio.com/v2/get%2" (EscapeError "%2"))).
  { reflexivity. }
  split; [exact E |].
  pose proof (transport_invoked_at_most_once (Q := strconv.QuoteASCII)
                (client (answer 500 emptyObject)) context.Background
                (CallGet "/get%2")) as (_ & W).
  destruct (W _ E) as (B & _ & _ & Tr & _). split; [exact B | exact Tr].
Defined.


(** C7 fails on the code: [Get] with a context that carries a value hands
    the transport a request whose context is the background context; the
    value is not to be found in it. *)
Lemma Get_drops_context :
  trace (Get (client (answer 200 emptyObject)) ctxWithKey "/get")
  = [EvDo (sent "GET" "/get") (DoResponse (http.mkResponse 200 emptyObject));
     EvRead (list_byte_of_string "{}") None; EvRead [] (Some EOF); EvClose]
  /\ http.Context (sent "GET" "/get") = context.Background
  /\ http.Context (sent "GET" "/get") <> ctxWithKey
  /\ context.Value ctxWithKey "key" = Some "test"
  /\ context.Value (http.Context (sent "GET" "/get")) "key" = None.
Proof.
  split; [vm_compute; reflexivity |].
  split; [reflexivity |].
  split; [discriminate |].
  split; reflexivity.
Qed.

(** The request of [Get]: the two headers, the verb and the URL. *)
Lemma request_credentials_and_target_witness :
  In (EvDo (sent "GET" "/get") (DoResponse (http.mkResponse 200 emptyObject)))
     (trace (run (client (answer 200 emptyObject)) context.Background (CallGet "/get")))
  /\ http.Header_Get (http.Header_ (sent "GET" "/get")) "Authorization"
     = "Basic YWNjOmF1dGg="
  /\ http.Header_Get (http.Header_ (sent "GET" "/get")) "Content-Type"
     = "application/x-www-form-urlencoded"
  /\ http.Method (sent "GET" "/get") = "GET"
  /\ http.URL (sent "GET" "/get")
     = url.mkURL "https" "" None "twilio.com" "/v2/get" "" false "" ""
  /\ url.URL_String (http.URL (sent "GET" "/get")) = "https://twilio.com/v2/get".
Proof.
  assert (I : In (EvDo (sent "GET" "/get")
                    (DoResponse (http.mkResponse 200 emptyObject)))
                 (trace (run (client (answer 200 emptyObject)) context.Background
                           (CallGet "/get")))).
  { vm_compute. left. reflexivity. }
  split; [exact I |].
  destruct (request_credentials_and_target _ _ _ _ _ I) as (Hh & Hm & u & P & U).
  assert (Eu : u = url.mkURL "https" "" None "twilio.com" "/v2/get" "" false "" "").
  { vm_compute in P. inversion P. reflexivity. }
  rewrite Hh, Hm, U, Eu. repeat split.
Defined.

(** C8 as stated fails: for the path [/a b] the URL of the request handed
    to the transport reads [https://twilio.com/v2/a%20b], which is not the
    concatenation of the base URL and the path. *)
Lemma target_reencoded_counterexample :
  targets (trace (Get (client (answer 200 emptyObject)) context.Background "/a b"))
  = ["https://twilio.com/v2/a%20b"]
  /\ "https://twilio.com/v2/a%20b" <> baseURL +:+ "/a b"
  /\ "https://twilio.com/v2/a%20b" <> url.URL_String parsedBaseURL +:+ "/a b".
Proof.
  split; [vm_compute; reflexivity |].
  split; vm_compute; discriminate.
Qed.

(** Status 200: the reads of the body, then the one [Close]. *)
Lemma body_closed_on_every_path_witness :
  In (EvDo (sent "GET" "/get") (DoResponse (http.mkResponse 200 emptyObject)))
     (trace (run (client (answer 200 emptyObject)) context.Background (CallGet "/get")))
  /\ exists evs,
       trace (run (client (answer 200 emptyObject)) context.Background (CallGet "/get"))
       = (EvDo (sent "GET" "/get") (DoResponse (http.mkResponse 200 emptyObject))
            :: evs ++ [EvClose])%list
       /\ Forall (fun e => isRead e = true) evs.
Proof.
  assert (I : In (EvDo (sent "GET" "/get")
                    (DoResponse (http.mkResponse 200 emptyObject)))
                 (trace (run (client (answer 200 emptyObject)) context.Background
                           (CallGet "/get")))).
  { vm_compute. left. reflexivity. }
  split; [exact I |].
  destruct (body_closed_on_every_path _ _ _ _ _ I) as (evs & E & F & _).
  exists evs. split; [exact E | exact F].
Defined.

(** C9 as stated fails: with status 404 and the body [{}], the body is
    closed but no [Read] is made on it: it is not drained. *)
Lemma not_found_body_not_drained_counterexample :
  trace (Get (client (answer 404 emptyObject)) context.Background "/get")
  = [EvDo (sent "GET" "/get") (DoResponse (http.mkResponse 404 emptyObject)); EvClose]
  /\ io.content emptyObject = list_byte_of_string "{}"
  /\ ~ drained (trace (Get (client (answer 404 emptyObject)) context.Background "/get")).
Proof.
  split; [vm_compute; reflexivity |].
  split; [reflexivity |].
  intros (p & e & I). vm_compute in I.
  destruct I as [E | [E | []]]; discriminate.
Qed.

End scenarios.

(** * Further properties of the client *)

Section outcomes.
Context {T : Type} {RH : RequestHandler T} {Q : Strconv}.

(** ** [request] after [Do], by case *)

Lemma respond_error req (rh' : T) e :
  respond req rh' (DoError e)
  = mkOutcome None
      (Some (errors.Wrapf e "could not get a response for %s"
               [fmt.Str (url.URL_String (http.URL req))]))
      rh' [EvDo req (DoError e)].
Proof. reflexivity. Qed.

Lemma respond_success req (rh' : T) resp :
  success (http.StatusCode resp) ->
  respond req rh' (DoResponse resp)
  = mkOutcome (Some (io.content (http.Body resp)))
      (if decide (io.stop (http.Body resp) = EOF) then None
       else Some (io.stop (http.Body resp)))
      rh'
      (EvDo req (DoResponse resp)
         :: map (fun x => EvRead (fst x) (snd x)) (io.reads (http.Body resp))
         ++ [EvClose])%list.
Proof.
  intros [Hlo Hhi]. unfold respond, ReadAll.
  replace ((_ <? 200)%Z || _)%bool with false by lia.
  rewrite ReadAll_content. reflexivity.
Qed.

Lemma respond_not_found req (rh' : T) resp :
  http.StatusCode resp = 404 ->
  respond req rh' (DoResponse resp)
  = mkOutcome None (Some ErrNotFound) rh' [EvDo req (DoResponse resp); EvClose].
Proof. intros E. unfold respond. rewrite E. reflexivity. Qed.

Lemma respond_unexpected req (rh' : T) resp :
  ~ success (http.StatusCode resp) ->
  http.StatusCode resp <> 404 ->
  respond req rh' (DoResponse resp)
  = mkOutcome None
      (Some (errors.Errorf "unexpected status code: %d"
               [fmt.Int (http.StatusCode resp)]))
      rh' [EvDo req (DoResponse resp); EvClose].
Proof.
  unfold success. intros Hc H404. unfold respond.
  replace ((_ <? 200)%Z || _)%bool with true by lia.
  replace (_ =? http.StatusNotFound)%Z with false
    by (unfold http.StatusNotFound; lia).
  reflexivity.
Qed.

Lemma handler_respond req (rh' : T) res : handler (respond req rh' res) = rh'.
Proof.
  unfold respond. destruct res as [resp | e]; [| reflexivity].
  destruct ((_ <? _)%Z || _)%bool; [destruct (_ =? _)%Z |]; try reflexivity.
  unfold ReadAll. destruct (io.ReadAll _). reflexivity.
Qed.

Lemma status_cases (statusCode : Z) :
  success statusCode \/ statusCode = 404 \/ (~ success statusCode /\ statusCode <> 404).
Proof. unfold success. lia. Qed.

(** A call either fails to build its request, with an empty trace, or
    ends as [respond] says on what [Do] returned. *)
Lemma run_cases (client : apiClient T) ctx (c : call) :
  (exists e,
     url.Parse (target client c) = inr e
     /\ run client ctx c
        = mkOutcome None (Some (errors.Wrap e "could not create request"))
            (rh client) [])
  \/ (exists req res,
        snd (Do (rh client) req) = res
        /\ In (EvDo req res) (trace (run client ctx c))
        /\ run client ctx c = respond req (fst (Do (rh client) req)) res).
Proof.
  rewrite request_unfold, NewRequest_verb.
  destruct (url.Parse (target client c)) as [u | e]; simpl.
  - right. eexists. eexists. split; [reflexivity |]. split; [| reflexivity].
    destruct (snd (Do _ _)) as [resp | e]; [| left; reflexivity].
    destruct (status_cases (http.StatusCode resp)) as [S | [S | [S S']]].
    + rewrite respond_success by exact S. left. reflexivity.
    + rewrite respond_not_found by exact S. left. reflexivity.
    + rewrite respond_unexpected by assumption. left. reflexivity.
  - left. exists e. auto.
Qed.

(** [url.Parse] reports every failure as a [*url.Error] for the operation
    "parse". *)
Lemma Parse_error (rawurl : string) e :
  url.Parse rawurl = inr e -> exists u e0, e = urlError "parse" u e0.
Proof.
  unfold url.Parse. destruct (url.split rawurl "#" true) as [u frag].
  destruct (url.parse u false) as [v | e1].
  - destruct (gostrings.isEmpty frag); [discriminate |].
    destruct (url.unescape frag url.encodeFragment); [discriminate |].
    intros E. inversion E. eauto.
  - intros E. inversion E. eauto.
Qed.

(** ** What the two returned values tell *)

(** X1: the error of a call is nil exactly when the transport returned a
    response with a status code in [200,400) whose body read to [io.EOF]. *)
Theorem nil_error_iff_success (client : apiClient T) ctx (c : call) :
  err (run client ctx c) = None
  <-> exists req resp,
        In (EvDo req (DoResponse resp)) (trace (run client ctx c))
        /\ success (http.StatusCode resp)
        /\ io.stop (http.Body resp) = EOF.
Proof.
  split.
  - destruct (run_cases client ctx c) as [(e & _ & ->) | (req & res & _ & I & E)];
      [discriminate |].
    revert I. rewrite E. clear E. destruct res as [resp | e]; [| discriminate].
    destruct (status_cases (http.StatusCode resp)) as [S | [S | [S S']]].
    + rewrite respond_success by exact S. simpl.
      destruct (decide (io.stop (http.Body resp) = EOF)); [| discriminate].
      intros I _. exists req, resp. auto.
    + rewrite respond_not_found by exact S. discriminate.
    + rewrite respond_unexpected by assumption. discriminate.
  - intros (req & resp & I & S & Hstop).
    destruct (run_Do _ _ _ _ _ I) as (req0 & _ & _ & _ & ->).
    rewrite respond_success by exact S. simpl. rewrite Hstop.
    destruct (decide (EOF = EOF)); congruence.
Qed.

(** X2: the slice of a call is non-nil exactly when the transport returned
    a response with a status code in [200,400); it then holds the bytes
    read from the body, also when the read failed or the body is empty. *)
Theorem bytes_iff_success_status (client : apiClient T) ctx (c : call) :
  (is_Some (bytes (run client ctx c))
   <-> exists req resp,
         In (EvDo req (DoResponse resp)) (trace (run client ctx c))
         /\ success (http.StatusCode resp))
  /\ forall req resp,
       In (EvDo req (DoResponse resp)) (trace (run client ctx c)) ->
       success (http.StatusCode resp) ->
       bytes (run client ctx c) = Some (io.content (http.Body resp)).
Proof.
  assert (Hfwd : forall req resp,
             In (EvDo req (DoResponse resp)) (trace (run client ctx c)) ->
             success (http.StatusCode resp) ->
             bytes (run client ctx c) = Some (io.content (http.Body resp))).
  { intros req resp I S.
    destruct (run_Do _ _ _ _ _ I) as (req0 & _ & _ & _ & ->).
    rewrite respond_success by exact S. reflexivity. }
  split; [split |]; [| | exact Hfwd].
  - destruct (run_cases client ctx c) as [(e & _ & ->) | (req & res & _ & I & E)].
    + intros [x Hx]. discriminate.
    + revert I. rewrite E. clear E. destruct res as [resp | e].
      * destruct (status_cases (http.StatusCode resp)) as [S | [S | [S S']]].
        -- intros I _. exists req, resp. auto.
        -- rewrite respond_not_found by exact S. intros _ [x Hx]. discriminate.
        -- rewrite respond_unexpected by assumption. intros _ [x Hx]. discriminate.
      * intros _ [x Hx]. discriminate.
  - intros (req & resp & I & S). rewrite (Hfwd _ _ I S). eauto.
Qed.

(** X3: a call never returns a nil slice together with a nil error. *)
Theorem never_nil_nil (client : apiClient T) ctx (c : call) :
  bytes (run client ctx c) = None -> is_Some (err (run client ctx c)).
Proof.
  destruct (run_cases client ctx c) as [(e & _ & ->) | (req & res & _ & _ & ->)].
  - simpl. eauto.
  - destruct res as [resp | e]; [| simpl; eauto].
    destruct (status_cases (http.StatusCode resp)) as [S | [S | [S S']]].
    + rewrite respond_success by exact S. discriminate.
    + rewrite respond_not_found by exact S. simpl. eauto.
    + rewrite respond_unexpected by assumption. simpl. eauto.
Qed.

(** X4: a call returns no bytes and the error [ErrNotFound] exactly when
    the transport returned a response with status code 404.  The errors of
    the other paths that return no bytes differ from [ErrNotFound] already
    as values (two wrappers, and a message that starts otherwise), so they
    are not the value the package holds either. *)
Theorem not_found_without_bytes (client : apiClient T) ctx (c : call) :
  (bytes (run client ctx c) = None /\ err (run client ctx c) = Some ErrNotFound)
  <-> exists req resp,
        In (EvDo req (DoResponse resp)) (trace (run client ctx c))
        /\ http.StatusCode resp = 404.
Proof.
  split.
  - destruct (run_cases client ctx c) as [(e & _ & ->) | (req & res & _ & I & E)].
    + intros [_ E]. discriminate.
    + revert I. rewrite E. clear E. destruct res as [resp | e].
      * destruct (status_cases (http.StatusCode resp)) as [S | [S | [S S']]].
        -- rewrite respond_success by exact S. intros _ [E _]. discriminate.
        -- intros I _. exists req, resp. auto.
        -- rewrite respond_unexpected by assumption. intros _ [_ E]. discriminate.
      * intros _ [_ E]. discriminate.
  - intros (req & resp & I & S).
    destruct (run_Do _ _ _ _ _ I) as (req0 & _ & _ & _ & ->).
    rewrite respond_not_found by exact S. split; reflexivity.
Qed.

(** X5: after an unexpected status code, the code can be read back from
    the message of the error: the decimal digits after the 24 characters
    of "unexpected status code: " denote it. *)
Theorem status_code_read_back (client : apiClient T) ctx (c : call) req resp :
  In (EvDo req (DoResponse resp)) (trace (run client ctx c)) ->
  ~ success (http.StatusCode resp) ->
  http.StatusCode resp <> 404 ->
  exists e,
    err (run client ctx c) = Some e
    /\ option_map Z.of_int
         (NilEmpty.int_of_string (gostrings.drop 24 (errors.Error e)))
       = Some (http.StatusCode resp).
Proof.
  intros I S S'.
  destruct (run_Do _ _ _ _ _ I) as (req0 & _ & _ & _ & ->).
  rewrite respond_unexpected by assumption.
  eexists. split; [reflexivity |].
  assert (E : errors.Error
                (errors.Errorf "unexpected status code: %d"
                   [fmt.Int (http.StatusCode resp)])
              = "unexpected status code: " +:+ strconv.Itoa (http.StatusCode resp)).
  { transitivity ("unexpected status code: "
                  +:+ (strconv.Itoa (http.StatusCode resp) +:+ ""));
      [reflexivity | rewrite append_empty_r; reflexivity]. }
  rewrite E.
  change (gostrings.drop 24
            ("unexpected status code: " +:+ strconv.Itoa (http.StatusCode resp)))
    with (strconv.Itoa (http.StatusCode resp)).
  apply Itoa_roundtrip.
Qed.

(** X6: what a call returns depends on the response alone: two calls, of
    any verbs, paths, contexts and clients, that get the same response
    from the transport return the same slice and the same error. *)
Theorem outcome_of_response (client1 client2 : apiClient T) ctx1 ctx2
    (c1 c2 : call) req1 req2 resp :
  In (EvDo req1 (DoResponse resp)) (trace (run client1 ctx1 c1)) ->
  In (EvDo req2 (DoResponse resp)) (trace (run client2 ctx2 c2)) ->
  bytes (run client1 ctx1 c1) = bytes (run client2 ctx2 c2)
  /\ err (run client1 ctx1 c1) = err (run client2 ctx2 c2).
Proof.
  intros I1 I2.
  destruct (run_Do _ _ _ _ _ I1) as (r1 & _ & _ & _ & ->).
  destruct (run_Do _ _ _ _ _ I2) as (r2 & _ & _ & _ & ->).
  destruct (status_cases (http.StatusCode resp)) as [S | [S | [S S']]].
  - rewrite !respond_success by exact S. auto.
  - rewrite !respond_not_found by exact S. auto.
  - rewrite !respond_unexpected by assumption. auto.
Qed.

(** ** What reaches the transport *)

(** The context given to a call has no influence on it: with any two
    contexts the call returns the same values, leaves the same handler and
    has the same trace. *)
Theorem context_ignored (client : apiClient T) ctx1 ctx2 (c : call) :
  run client ctx1 c = run client ctx2 c.
Proof. destruct c; reflexivity. Qed.

(** X7: the request handed to the transport carries the body of the call
    ([Post]: the reader of the caller; [Get] and [Delete]: none), and its
    [Host] is the host of its URL. *)
Theorem request_body_and_host (client : apiClient T) ctx (c : call) req res :
  In (EvDo req res) (trace (run client ctx c)) ->
  http.ReqBody req = body_of c
  /\ http.Host req = url.Host (http.URL req).
Proof.
  intros I.
  destruct (run_Do _ _ _ _ _ I) as (req0 & E & -> & _).
  rewrite NewRequest_verb in E.
  destruct (url.Parse _); inversion E. split; reflexivity.
Qed.

(** X8: besides [Authorization] and [Content-Type] the request has no
    header: [Header.Get] gives the two values for any spelling of the two
    keys, and the empty string for every other key. *)
Theorem headers_read_back (client : apiClient T) ctx (c : call) req res key :
  In (EvDo req res) (trace (run client ctx c)) ->
  http.Header_Get (http.Header_ req) key
  = if String.eqb (http.CanonicalMIMEHeaderKey key) "Content-Type"
    then "application/x-www-form-urlencoded"
    else if String.eqb (http.CanonicalMIMEHeaderKey key) "Authorization"
    then "Basic " +:+ http.basicAuth (accountSID client) (authToken client)
    else "".
Proof.
  intros I.
  destruct (run_Do _ _ _ _ _ I) as (req0 & E & -> & _).
  rewrite NewRequest_verb in E.
  destruct (url.Parse _); inversion E. subst req0. clear E.
  unfold http.Header_Get, prepared, http.SetBasicAuth, http.setHeader,
    http.Header_Set. simpl http.Header_.
  change (http.CanonicalMIMEHeaderKey "Content-Type") with "Content-Type".
  change (http.CanonicalMIMEHeaderKey "Authorization") with "Authorization".
  destruct (String.eqb_spec (http.CanonicalMIMEHeaderKey key) "Content-Type") as [-> | N1].
  - rewrite lookup_insert_eq. reflexivity.
  - rewrite lookup_insert_ne by congruence.
    destruct (String.eqb_spec (http.CanonicalMIMEHeaderKey key) "Authorization")
      as [-> | N2].
    + rewrite lookup_insert_eq. reflexivity.
    + rewrite lookup_insert_ne by congruence. rewrite lookup_empty. reflexivity.
Qed.

(** ** The body and the handler *)

(** X9: a call closes a body exactly when the transport returned a
    response, and reads from a body exactly when that response has a
    status code in [200,400): after an error of the transport, or of
    building the request, nothing is read and nothing is closed. *)
Theorem close_iff_response (client : apiClient T) ctx (c : call) :
  (In EvClose (trace (run client ctx c))
   <-> exists req resp, In (EvDo req (DoResponse resp)) (trace (run client ctx c)))
  /\ ((exists p e, In (EvRead p e) (trace (run client ctx c)))
      <-> exists req resp,
            In (EvDo req (DoResponse resp)) (trace (run client ctx c))
            /\ success (http.StatusCode resp)).
Proof.
  destruct (run_cases client ctx c) as [(e & _ & ->) | (req & res & _ & _ & ->)].
  - simpl. split; split; try tauto; intros (? & ? & ?); tauto.
  - destruct res as [resp | e].
    + destruct (status_cases (http.StatusCode resp)) as [S | [S | [S S']]].
      * rewrite respond_success by exact S. simpl. split; split.
        -- intros _. exists req, resp. left. reflexivity.
        -- intros _. right. apply in_or_app. right. left. reflexivity.
        -- intros _. exists req, resp. split; [left; reflexivity | exact S].
        -- intros _. destruct (http.Body resp) as [p next | e0]; simpl;
             eexists; eexists; right; left; reflexivity.
      * rewrite respond_not_found by exact S. simpl. split; split.
        -- intros _. exists req, resp. left. reflexivity.
        -- intros _. right. left. reflexivity.
        -- intros (p & e & [E | [E | []]]); discriminate.
        -- intros (r & r' & [E | [E | []]] & S2); [| discriminate].
           inversion E. subst. unfold success in S2. lia.
      * rewrite respond_unexpected by assumption. simpl. split; split.
        -- intros _. exists req, resp. left. reflexivity.
        -- intros _. right. left. reflexivity.
        -- intros (p & e & [E | [E | []]]); discriminate.
        -- intros (r & r' & [E | [E | []]] & S2); [| discriminate].
           inversion E. subst. contradiction.
    + rewrite respond_error. simpl. split; split.
      * intros [E | []]. discriminate.
      * intros (r & r' & [E | []]). discriminate.
      * intros (p & e' & [E | []]). discriminate.
      * intros (r & r' & [E | []] & _). discriminate.
Qed.

(** ** The errors of building *)

(** X10: when construction fails, [errors.Cause] of the error is the
    [*url.Error] of [url.Parse], for the operation "parse", and the message
    is "could not parse url: " followed by the message of that error. *)
Theorem construction_error_cause (accountSID authToken baseURL : string) (rh : T) e' :
  snd (NewHTTPClient accountSID authToken baseURL rh) = Some e' ->
  exists u e0,
    url.Parse baseURL = inr (urlError "parse" u e0)
    /\ errors.Cause e' = urlError "parse" u e0
    /\ errors.Error e'
       = "could not parse url: parse " +:+ u +:+ ": " +:+ errors.Error e0.
Proof.
  unfold NewHTTPClient.
  destruct (url.Parse baseURL) as [v | e] eqn:E; [discriminate |].
  destruct (Parse_error _ _ E) as (u & e0 & ->).
  simpl. intros E'. inversion E'. subst e'. exists u, e0. auto.
Qed.

(** X11: a call that does not invoke the transport returns no bytes and a
    wrapped [*url.Error]: the only way building the request fails, for the
    three verbs, is that the concatenated URL does not parse. *)
Theorem not_invoked_error_cause (client : apiClient T) ctx (c : call) :
  List.filter isDo (trace (run client ctx c)) = [] ->
  bytes (run client ctx c) = None
  /\ handler (run client ctx c) = rh client
  /\ exists u e0,
       url.Parse (target client c) = inr (urlError "parse" u e0)
       /\ err (run client ctx c)
          = Some (errors.Wrap (urlError "parse" u e0) "could not create request")
       /\ errors.Cause (errors.Wrap (urlError "parse" u e0) "could not create request")
          = urlError "parse" u e0.
Proof.
  destruct (run_cases client ctx c) as [(e & E & ->) | (req & res & _ & I & _)].
  - intros _. destruct (Parse_error _ _ E) as (u & e0 & ->).
    simpl. repeat split. exists u, e0. auto.
  - intros F. exfalso.
    assert (I' : In (EvDo req res) (List.filter isDo (trace (run client ctx c)))).
    { apply List.filter_In. split; [exact I | reflexivity]. }
    rewrite F in I'. destruct I'.
Qed.

(** ** Construction, then a call *)

(** X12: on a client that [NewHTTPClient] made, every request that reaches
    the transport carries the credentials given to the constructor, is
    answered by the handler given to the constructor, and has the URL that
    parsing gives for the printed base URL followed by the path, with an
    empty port removed from the host. *)
Theorem constructed_client_call
    (sid token baseURL : string) (h : T) (client : apiClient T) ctx (c : call) req res :
  NewHTTPClient sid token baseURL h = (Some client, None) ->
  In (EvDo req res) (trace (run client ctx c)) ->
  http.Header_Get (http.Header_ req) "Authorization"
  = "Basic " +:+ base64.EncodeToString (sid +:+ ":" +:+ token)
  /\ Do h req = (handler (run client ctx c), res)
  /\ exists u u',
       url.Parse baseURL = inl u
       /\ url.Parse (url.URL_String u +:+ path_of c) = inl u'
       /\ http.URL req = http.withHost u' (http.removeEmptyPort (url.Host u')).
Proof.
  unfold NewHTTPClient.
  destruct (url.Parse baseURL) as [u | e] eqn:Eu; [| discriminate].
  intros E I. inversion E. subst client. clear E.
  destruct (run_Do _ _ _ _ _ I) as (req0 & E & -> & Hres & ->).
  rewrite NewRequest_verb in E. unfold target in E. simpl in E.
  destruct (url.Parse (url.URL_String u +:+ path_of c)) as [u' | e'] eqn:Eu';
    inversion E. subst req0. clear E.
  split; [reflexivity |]. split.
  - rewrite handler_respond. simpl rh in *. rewrite <- Hres.
    destruct (Do h _); reflexivity.
  - exists u, u'. repeat split. exact Eu'.
Qed.

End outcomes.

(** ** The credentials in the header *)

Lemma enc_table (m : N) :
  (m < 64)%N ->
  base64.dec (base64.enc m) = m /\ Ascii.eqb (base64.enc m) "=" = false.
Proof.
  intros Hm.
  assert (A : forallb
                (fun k => (N.eqb (base64.dec (base64.enc (N.of_nat k))) (N.of_nat k)
                           && negb (Ascii.eqb (base64.enc (N.of_nat k)) "="))%bool)
                (seq 0 64) = true) by (vm_compute; reflexivity).
  rewrite forallb_forall in A.
  specialize (A (N.to_nat m)). rewrite N2Nat.id in A.
  assert (I : In (N.to_nat m) (seq 0 64)) by (apply in_seq; lia).
  apply A in I. apply andb_true_iff in I. destruct I as [I1 I2].
  apply N.eqb_eq in I1. apply negb_true_iff in I2. auto.
Qed.

Lemma enc_mod (n : N) : base64.enc n = base64.enc (n mod 64).
Proof. unfold base64.enc. rewrite N.Div0.mod_mod. reflexivity. Qed.

Lemma dec_enc (n : N) : base64.dec (base64.enc n) = (n mod 64)%N.
Proof. rewrite enc_mod. apply enc_table. apply N.mod_lt. discriminate. Qed.

Lemma enc_not_pad (n : N) : Ascii.eqb (base64.enc n) "=" = false.
Proof. rewrite enc_mod. apply enc_table. apply N.mod_lt. discriminate. Qed.

(** The four 6-bit digits of a 24-bit number give the number back. *)
Lemma digits (v : N) :
  (v < 16777216)%N ->
  ((v / 262144) mod 64 * 64 + (v / 4096) mod 64 = v / 4096
   /\ ((v / 262144) mod 64 * 64 + (v / 4096) mod 64) * 64 + (v / 64) mod 64 = v / 64
   /\ (((v / 262144) mod 64 * 64 + (v / 4096) mod 64) * 64 + (v / 64) mod 64) * 64
      + v mod 64 = v)%N.
Proof.
  intros Hv.
  assert (H3 : (v / 262144 < 64)%N) by (apply N.Div0.div_lt_upper_bound; exact Hv).
  rewrite (N.mod_small _ _ H3).
  pose proof (N.div_mod v 64 ltac:(discriminate)) as E0.
  pose proof (N.div_mod (v / 64) 64 ltac:(discriminate)) as E1.
  pose proof (N.div_mod (v / 4096) 64 ltac:(discriminate)) as E2.
  replace (v / 64 / 64)%N with (v / 4096)%N in E1
    by (rewrite N.Div0.div_div; reflexivity).
  replace (v / 4096 / 64)%N with (v / 262144)%N in E2
    by (rewrite N.Div0.div_div; reflexivity).
  revert E0 E1 E2.
  generalize (v mod 64)%N ((v / 64) mod 64)%N ((v / 4096) mod 64)%N
    (v / 64)%N (v / 4096)%N (v / 262144)%N.
  intros. lia.
Qed.

Lemma group3 (a b c : N) :
  (a < 256)%N -> (b < 256)%N -> (c < 256)%N ->
  ((a * 65536 + b * 256 + c) / 65536 = a
   /\ ((a * 65536 + b * 256 + c) / 256) mod 256 = b
   /\ (a * 65536 + b * 256 + c) mod 256 = c)%N.
Proof.
  intros Ha Hb Hc. split; [| split].
  - symmetry. apply (N.div_unique _ _ _ (b * 256 + c)%N); lia.
  - replace ((a * 65536 + b * 256 + c) / 256)%N with (a * 256 + b)%N
      by (apply (N.div_unique _ _ _ c); lia).
    symmetry. apply (N.mod_unique _ _ a); lia.
  - symmetry. apply (N.mod_unique _ _ (a * 256 + b)%N); lia.
Qed.

Lemma group2 (a b : N) :
  (a < 256)%N -> (b < 256)%N ->
  ((a * 65536 + b * 256) / 64 / 1024 = a
   /\ ((a * 65536 + b * 256) / 64 / 4) mod 256 = b)%N.
Proof.
  intros Ha Hb.
  replace ((a * 65536 + b * 256) / 64)%N with (a * 1024 + b * 4)%N
    by (apply (N.div_unique _ _ _ 0%N); lia).
  split.
  - symmetry. apply (N.div_unique _ _ _ (b * 4)%N); lia.
  - replace ((a * 1024 + b * 4) / 4)%N with (a * 256 + b)%N
      by (apply (N.div_unique _ _ _ 0%N); lia).
    symmetry. apply (N.mod_unique _ _ a); lia.
Qed.

Lemma group1 (a : N) : (a < 256)%N -> (a * 65536 / 4096 / 16 = a)%N.
Proof.
  intros Ha.
  replace (a * 65536 / 4096)%N with (a * 16)%N
    by (apply (N.div_unique _ _ _ 0%N); lia).
  symmetry. apply (N.div_unique _ _ _ 0%N); lia.
Qed.

Lemma decode_Encode_le (n : nat) (s : string) :
  (String.length s <= n)%nat -> base64.decode (base64.EncodeToString s) = s.
Proof.
  revert s. induction n as [| n IH]; intros s Hn.
  - destruct s; [reflexivity | simpl in Hn; lia].
  - destruct s as [| a [| b [| c rest]]]; [reflexivity | | |].
    + cbn [base64.EncodeToString base64.decode].
      change (Ascii.eqb "=" "=") with true. cbv iota.
      rewrite !dec_enc.
      pose proof (N_ascii_bounded a) as Ha.
      destruct (digits (N_of_ascii a * 65536)%N ltac:(lia)) as (D & _ & _).
      rewrite D, (group1 _ Ha), ascii_N_embedding. reflexivity.
    + cbn [base64.EncodeToString base64.decode].
      rewrite enc_not_pad. change (Ascii.eqb "=" "=") with true. cbv iota.
      rewrite !dec_enc.
      pose proof (N_ascii_bounded a) as Ha. pose proof (N_ascii_bounded b) as Hb.
      destruct (digits (N_of_ascii a * 65536 + N_of_ascii b * 256)%N ltac:(lia))
        as (_ & D & _).
      rewrite D. destruct (group2 _ _ Ha Hb) as (-> & ->).
      rewrite !ascii_N_embedding. reflexivity.
    + cbn [base64.EncodeToString base64.decode].
      rewrite !enc_not_pad. cbv iota.
      rewrite !dec_enc.
      pose proof (N_ascii_bounded a) as Ha. pose proof (N_ascii_bounded b) as Hb.
      pose proof (N_ascii_bounded c) as Hc.
      destruct (digits (N_of_ascii a * 65536 + N_of_ascii b * 256 + N_of_ascii c)%N
                  ltac:(lia)) as (_ & _ & D).
      rewrite D. destruct (group3 _ _ _ Ha Hb Hc) as (-> & -> & ->).
      rewrite !ascii_N_embedding. rewrite IH; [reflexivity |].
      simpl in Hn. lia.
Qed.

(** The encoding loses nothing: it can be read back. *)
Lemma decode_Encode (s : string) : base64.decode (base64.EncodeToString s) = s.
Proof. apply (decode_Encode_le (String.length s)). lia. Qed.

Lemma append_cons (a : ascii) (s t : string) : String a s +:+ t = String a (s +:+ t).
Proof. reflexivity. Qed.

(** A string without a colon, a colon, and a rest: the parts are found
    again by cutting at the first colon. *)
Lemma cut_at_first_colon (s1 s2 t1 t2 : string) :
  gostrings.CountByte s1 ":" = 0%nat ->
  gostrings.CountByte s2 ":" = 0%nat ->
  s1 +:+ ":" +:+ t1 = s2 +:+ ":" +:+ t2 ->
  s1 = s2 /\ t1 = t2.
Proof.
  revert s2. induction s1 as [| a s1 IH]; intros [| b s2] H1 H2 E.
  - inversion E. auto.
  - rewrite append_cons in E. inversion E. subst b.
    simpl in H2. discriminate.
  - rewrite append_cons in E. inversion E. subst a.
    simpl in H1. discriminate.
  - rewrite !append_cons in E. inversion E. subst b.
    simpl in H1, H2.
    destruct (Ascii.eqb a ":"); [discriminate |].
    destruct (IH s2 H1 H2 ltac:(assumption)) as [-> ->]. auto.
Qed.

Section credentials.
Context {T : Type} {RH : RequestHandler T}.

(** X13: the [Authorization] header loses nothing of the credentials: two
    requests with the same header come from clients with the same string
    [accountSID:authToken]; and when neither account identifier holds a
    colon, from clients with the same account identifier and the same
    token. *)
Theorem credentials_from_header (client1 client2 : apiClient T) ctx1 ctx2
    (c1 c2 : call) req1 req2 res1 res2 :
  In (EvDo req1 res1) (trace (run client1 ctx1 c1)) ->
  In (EvDo req2 res2) (trace (run client2 ctx2 c2)) ->
  http.Header_Get (http.Header_ req1) "Authorization"
  = http.Header_Get (http.Header_ req2) "Authorization" ->
  accountSID client1 +:+ ":" +:+ authToken client1
  = accountSID client2 +:+ ":" +:+ authToken client2
  /\ (gostrings.CountByte (accountSID client1) ":" = 0%nat ->
      gostrings.CountByte (accountSID client2) ":" = 0%nat ->
      accountSID client1 = accountSID client2
      /\ authToken client1 = authToken client2).
Proof.
  intros I1 I2.
  destruct (run_Do _ _ _ _ _ I1) as (r1 & E1 & -> & _).
  destruct (run_Do _ _ _ _ _ I2) as (r2 & E2 & -> & _).
  rewrite NewRequest_verb in E1, E2.
  destruct (url.Parse (target client1 c1)); inversion E1. subst r1.
  destruct (url.Parse (target client2 c2)); inversion E2. subst r2.
  clear E1 E2 I1 I2.
  change (http.Header_Get (http.Header_ (prepared client1 _)) "Authorization")
    with ("Basic " +:+ http.basicAuth (accountSID client1) (authToken client1)).
  change (http.Header_Get (http.Header_ (prepared client2 _)) "Authorization")
    with ("Basic " +:+ http.basicAuth (accountSID client2) (authToken client2)).
  intros E. apply (inj (String.append "Basic ")) in E.
  unfold http.basicAuth in E.
  apply (f_equal base64.decode) in E. rewrite !decode_Encode in E.
  split; [exact E |].
  intros N1 N2. exact (cut_at_first_colon _ _ _ _ N1 N2 E).
Qed.

End credentials.

(** A colon in the account identifier is not told from the separator: these
    two pairs of credentials give the same header. *)
Example colon_in_account_collides :
  http.basicAuth "a:b" "c" = http.basicAuth "a" "b:c".
Proof. reflexivity. Qed.

(** ** The handler of the tests *)

(** X14: with the handler of the tests, [requestInvoked] is true after a
    call exactly when it was true before or the call invoked [Do]; the
    handler function is kept, and what [Do] returned is what the handler
    function returns on the request. *)
Theorem mock_requestInvoked (client : apiClient mockRequestHandler) ctx (c : call) :
  (requestInvoked (handler (run client ctx c)) = true
   <-> requestInvoked (rh client) = true
       \/ exists req res, In (EvDo req res) (trace (run client ctx c)))
  /\ requestHandlerFunc (handler (run client ctx c)) = requestHandlerFunc (rh client)
  /\ forall req res,
       In (EvDo req res) (trace (run client ctx c)) ->
       res = requestHandlerFunc (rh client) req.
Proof.
  destruct (run_cases client ctx c)
    as [(e & _ & ->) | (req & res & Hres & I & E)].
  - simpl. split; [| split]; [| reflexivity |].
    + split; [auto | intros [E | (r & r' & [])]; exact E].
    + intros r r' [].
  - split; [| split].
    + rewrite E at 1. rewrite handler_respond. simpl. split; [| reflexivity].
      intros _. right. eauto.
    + rewrite E. rewrite handler_respond. reflexivity.
    + intros r r' I'. destruct (run_Do _ _ _ _ _ I') as (r0 & _ & _ & <- & _).
      reflexivity.
Qed.

(** * The further properties on concrete calls *)

Section further_scenarios.
Import scenario.

Lemma never_nil_nil_witness :
  bytes (run (client (answer 404 emptyObject)) context.Background (CallGet "/get")) = None
  /\ is_Some (err (run (client (answer 404 emptyObject)) context.Background
                     (CallGet "/get"))).
Proof.
  assert (E : bytes (run (client (answer 404 emptyObject)) context.Background
                       (CallGet "/get")) = None) by reflexivity.
  split; [exact E | exact (never_nil_nil _ _ _ E)].
Defined.

Lemma status_code_read_back_witness :
  In (EvDo (sent "GET" "/get") (DoResponse (http.mkResponse 503 emptyObject)))
     (trace (run (client (answer 503 emptyObject)) context.Background (CallGet "/get")))
  /\ exists e,
       err (run (client (answer 503 emptyObject)) context.Background (CallGet "/get"))
       = Some e
       /\ option_map Z.of_int
            (NilEmpty.int_of_string
               (gostrings.drop 24 (errors.Error (Q := strconv.QuoteASCII) e)))
          = Some 503.
Proof.
  assert (I : In (EvDo (sent "GET" "/get")
                    (DoResponse (http.mkResponse 503 emptyObject)))
                 (trace (run (client (answer 503 emptyObject)) context.Background
                           (CallGet "/get")))).
  { vm_compute. left. reflexivity. }
  split; [exact I |].
  apply (status_code_read_back (Q := strconv.QuoteASCII) _ _ _ _ _ I).
  - unfold success. simpl. lia.
  - simpl. lia.
Defined.

Lemma outcome_of_response_witness :
  In (EvDo (sent "GET" "/get") (DoResponse (http.mkResponse 200 brokenBody)))
     (trace (run (client (answer 200 brokenBody)) context.Background (CallGet "/get")))
  /\ In (EvDo (sent "DELETE" "/delete") (DoResponse (http.mkResponse 200 brokenBody)))
       (trace (run (client (answer 200 brokenBody)) ctxWithKey (CallDelete "/delete")))
  /\ bytes (run (client (answer 200 brokenBody)) context.Background (CallGet "/get"))
     = bytes (run (client (answer 200 brokenBody)) ctxWithKey (CallDelete "/delete"))
  /\ err (run (client (answer 200 brokenBody)) context.Background (CallGet "/get"))
     = err (run (client (answer 200 brokenBody)) ctxWithKey (CallDelete "/delete")).
Proof.
  assert (I1 : In (EvDo (sent "GET" "/get")
                     (DoResponse (http.mkResponse 200 brokenBody)))
                  (trace (run (client (answer 200 brokenBody)) context.Background
                            (CallGet "/get")))).
  { vm_compute. left. reflexivity. }
  assert (I2 : In (EvDo (sent "DELETE" "/delete")
                     (DoResponse (http.mkResponse 200 brokenBody)))
                  (trace (run (client (answer 200 brokenBody)) ctxWithKey
                            (CallDelete "/delete")))).
  { vm_compute. left. reflexivity. }
  split; [exact I1 |]. split; [exact I2 |].
  exact (outcome_of_response _ _ _ _ _ _ _ _ _ I1 I2).
Defined.

Lemma request_body_and_host_witness :
  In (EvDo (sentPost (Some emptyObject)) (DoResponse (http.mkResponse 200 emptyObject)))
     (trace (run (client (answer 200 emptyObject)) context.Background
               (CallPost "/post" (Some emptyObject))))
  /\ http.ReqBody (sentPost (Some emptyObject)) = Some emptyObject
  /\ http.Host (sentPost (Some emptyObject)) = "twilio.com".
Proof.
  assert (I : In (EvDo (sentPost (Some emptyObject))
                    (DoResponse (http.mkResponse 200 emptyObject)))
                 (trace (run (client (answer 200 emptyObject)) context.Background
                           (CallPost "/post" (Some emptyObject))))).
  { vm_compute. left. reflexivity. }
  split; [exact I |].
  destruct (request_body_and_host _ _ _ _ _ I) as [B Hh].
  split; [exact B | rewrite Hh; reflexivity].
Defined.

Lemma headers_read_back_witness :
  In (EvDo (sent "GET" "/get") (DoResponse (http.mkResponse 200 emptyObject)))
     (trace (run (client (answer 200 emptyObject)) context.Background (CallGet "/get")))
  /\ http.Header_Get (http.Header_ (sent "GET" "/get")) "content-type"
     = "application/x-www-form-urlencoded"
  /\ http.Header_Get (http.Header_ (sent "GET" "/get")) "Accept" = "".
Proof.
  assert (I : In (EvDo (sent "GET" "/get")
                    (DoResponse (http.mkResponse 200 emptyObject)))
                 (trace (run (client (answer 200 emptyObject)) context.Background
                           (CallGet "/get")))).
  { vm_compute. left. reflexivity. }
  split; [exact I |].
  rewrite (headers_read_back _ _ _ _ _ "content-type" I).
  rewrite (headers_read_back _ _ _ _ _ "Accept" I).
  split; reflexivity.
Defined.

Lemma construction_error_cause_witness :
  snd (NewHTTPClient acc auth "%" (mkMock false (answer 200 emptyObject)))
  = Some (errors.Wrap (urlError "parse" "%" (EscapeError "%")) "could not parse url")
  /\ exists u e0,
       url.Parse "%" = inr (urlError "parse" u e0)
       /\ errors.Cause
            (errors.Wrap (urlError "parse" "%" (EscapeError "%")) "could not parse url")
          = urlError "parse" u e0.
Proof.
  assert (E : snd (NewHTTPClient acc auth "%" (mkMock false (answer 200 emptyObject)))
              = Some (errors.Wrap (urlError "parse" "%" (EscapeError "%"))
                        "could not parse url")) by reflexivity.
  split; [exact E |].
  destruct (construction_error_cause (Q := strconv.QuoteASCII) _ _ _ _ _ E)
    as (u & e0 & P & C & _).
  exists u, e0. split; [exact P | exact C].
Defined.

Lemma not_invoked_error_cause_witness :
  List.filter isDo
    (trace (run (client (answer 500 emptyObject)) context.Background (CallGet "/get%2")))
  = []
  /\ bytes (run (client (answer 500 emptyObject)) context.Background (CallGet "/get%2"))
     = None.
Proof.
  assert (F : List.filter isDo
                (trace (run (client (answer 500 emptyObject)) context.Background
                          (CallGet "/get%2"))) = []) by reflexivity.
  split; [exact F |].
  destruct (not_invoked_error_cause _ _ _ F) as (B & _). exact B.
Defined.

Lemma constructed_client_call_witness :
  NewHTTPClient acc auth baseURL (mkMock false (answer 200 emptyObject))
  = (Some (client (answer 200 emptyObject)), None)
  /\ In (EvDo (sent "GET" "/get") (DoResponse (http.mkResponse 200 emptyObject)))
       (trace (run (client (answer 200 emptyObject)) context.Background (CallGet "/get")))
  /\ http.Header_Get (http.Header_ (sent "GET" "/get")) "Authorization"
     = "Basic YWNjOmF1dGg="
  /\ url.URL_String (http.URL (sent "GET" "/get")) = "https://twilio.com/v2/get".
Proof.
  assert (E : NewHTTPClient acc auth baseURL (mkMock false (answer 200 emptyObject))
              = (Some (client (answer 200 emptyObject)), None)) by reflexivity.
  assert (I : In (EvDo (sent "GET" "/get")
                    (DoResponse (http.mkResponse 200 emptyObject)))
                 (trace (run (client (answer 200 emptyObject)) context.Background
                           (CallGet "/get")))).
  { vm_compute. left. reflexivity. }
  split; [exact E |]. split; [exact I |].
  destruct (constructed_client_call _ _ _ _ _ _ _ _ _ E I)
    as (A & _ & u & u' & Pu & Pu' & U).
  assert (Eu : u = parsedBaseURL) by (vm_compute in Pu; inversion Pu; reflexivity).
  subst u.
  assert (Eu' : u' = url.mkURL "https" "" None "twilio.com" "/v2/get" "" false "" "").
  { vm_compute in Pu'. inversion Pu'. reflexivity. }
  rewrite A, U, Eu'. split; reflexivity.
Defined.

Lemma credentials_from_header_witness :
  In (EvDo (sent "GET" "/get") (DoResponse (http.mkResponse 200 emptyObject)))
     (trace (run (client (answer 200 emptyObject)) context.Background (CallGet "/get")))
  /\ In (EvDo (sent "GET" "/get") (DoResponse (http.mkResponse 404 emptyObject)))
       (trace (run (client (answer 404 emptyObject)) context.Background (CallGet "/get")))
  /\ accountSID (client (answer 200 emptyObject)) +:+ ":"
       +:+ authToken (client (answer 200 emptyObject))
     = accountSID (client (answer 404 emptyObject)) +:+ ":"
       +:+ authToken (client (answer 404 emptyObject)).
Proof.
  assert (I1 : In (EvDo (sent "GET" "/get")
                     (DoResponse (http.mkResponse 200 emptyObject)))
                  (trace (run (client (answer 200 emptyObject)) context.Background
                            (CallGet "/get")))).
  { vm_compute. left. reflexivity. }
  assert (I2 : In (EvDo (sent "GET" "/get")
                     (DoResponse (http.mkResponse 404 emptyObject)))
                  (trace (run (client (answer 404 emptyObject)) context.Background
                            (CallGet "/get")))).
  { vm_compute. left. reflexivity. }
  split; [exact I1 |]. split; [exact I2 |].
  destruct (credentials_from_header _ _ _ _ _ _ _ _ _ _ I1 I2 eq_refl) as (E & _).
  exact E.
Defined.

End further_scenarios.
